(** * Streaming chat session: the client store and its stream protocol loop

    A shallow embedding of [Frontend/lib/api.ts] (the transport functions and
    [streamChat]), of [Frontend/lib/chat-store.ts] (the zustand chat store
    with [loadConversation], [sendMessage] and [clearChat]) and of the submit
    handler of the chat component, followed by the properties of the
    streaming session that hold of this code.

    A second part embeds the functions of [api.ts] outside of the chat
    session and the conversation store that uses them, with the properties
    of the failure paths of a send, of a load and of the two stores.

    Asynchronous functions are modelled as computations in a monad of state
    and exceptions: a rejected promise is a thrown value, [await] is
    sequencing.  One call runs from its start to its end without another
    call of the store interleaved.  Text is held as the bytes of its UTF-8
    encoding. *)

From Stdlib Require Import String Ascii List ZArith Bool Lia Sorted.
Import ListNotations.

Local Open Scope string_scope.
Local Open Scope Z_scope.

(** ** The string primitives of the platform used by the code *)

Module Js.

Definition newline : ascii := "010"%char.

  (** [String.prototype.split] with a one-character separator: the result
      always has one more element than there are separators. *)
Fixpoint split (sep : ascii) (s : string) : list string :=
    match s with
    | EmptyString => [EmptyString]
    | String c rest =>
        if Ascii.eqb c sep then EmptyString :: split sep rest
        else match split sep rest with
             | [] => [String c EmptyString]
             | l :: ls => String c l :: ls
             end
    end.

  (** [s.startsWith(p)] *)
Definition startsWith (p s : string) : bool := String.prefix p s.

  (** [s.slice(n)] for a non-negative [n]: drops the first [n] characters. *)
Fixpoint slice (n : nat) (s : string) : string :=
    match n, s with
    | O, _ => s
    | S _, EmptyString => EmptyString
    | S n', String _ rest => slice n' rest
    end.

  (** Text is held as its UTF-8 bytes.  [String.prototype.trim] strips the
      white space and the line terminators of the language: tab, line feed,
      vertical tab, form feed, carriage return, space, the no-break space
      U+00A0, the byte order mark U+FEFF, the separators U+2028 and U+2029
      and the other space separators of Unicode (U+1680, U+2000 to U+200A,
      U+202F, U+205F, U+3000).  In UTF-8 the first six take one byte, U+00A0
      takes two and the others take three. *)
Definition isWhiteSpace (c : ascii) : bool :=
    let n := nat_of_ascii c in
    ((9 <=? n)%nat && (n <=? 13)%nat) || (n =? 32)%nat.

  (** U+00A0 is [C2 A0]. *)
Definition isWhiteSpace2 (c1 c2 : ascii) : bool :=
    (nat_of_ascii c1 =? 194)%nat && (nat_of_ascii c2 =? 160)%nat.

  (** U+1680 is [E1 9A 80]; U+2000 to U+200A are [E2 80 80] to [E2 80 8A];
      U+2028, U+2029 and U+202F are [E2 80 A8], [E2 80 A9] and [E2 80 AF];
      U+205F is [E2 81 9F]; U+3000 is [E3 80 80]; U+FEFF is [EF BB BF]. *)
Definition isWhiteSpace3 (c1 c2 c3 : ascii) : bool :=
    let n1 := nat_of_ascii c1 in
    let n2 := nat_of_ascii c2 in
    let n3 := nat_of_ascii c3 in
    ((n1 =? 225)%nat && (n2 =? 154)%nat && (n3 =? 128)%nat)
    || ((n1 =? 226)%nat && (n2 =? 128)%nat
        && (((128 <=? n3)%nat && (n3 <=? 138)%nat)
            || (n3 =? 168)%nat || (n3 =? 169)%nat || (n3 =? 175)%nat))
    || ((n1 =? 226)%nat && (n2 =? 129)%nat && (n3 =? 159)%nat)
    || ((n1 =? 227)%nat && (n2 =? 128)%nat && (n3 =? 128)%nat)
    || ((n1 =? 239)%nat && (n2 =? 187)%nat && (n3 =? 191)%nat).

Fixpoint trimStart (s : string) : string :=
    match s with
    | EmptyString => EmptyString
    | String c1 rest1 =>
        if isWhiteSpace c1 then trimStart rest1
        else
          match rest1 with
          | EmptyString => s
          | String c2 rest2 =>
              if isWhiteSpace2 c1 c2 then trimStart rest2
              else
                match rest2 with
                | EmptyString => s
                | String c3 rest3 =>
                    if isWhiteSpace3 c1 c2 c3 then trimStart rest3 else s
                end
          end
    end.

  (** A text of white space only. *)
Definition isBlank (s : string) : bool :=
    match trimStart s with EmptyString => true | _ => false end.

  (** The text without the white space it ends with: what is left from
      the point where only white space follows is dropped.  (A byte that
      continues a character never starts white space, so the cut falls
      between two characters.) *)
Fixpoint trimEnd (s : string) : string :=
    match s with
    | EmptyString => EmptyString
    | String c rest => if isBlank s then EmptyString else String c (trimEnd rest)
    end.

Definition trim (s : string) : string := trimEnd (trimStart s).

  (** Truthiness of a string: the empty string is falsy. *)
Definition truthy (s : string) : bool :=
    match s with EmptyString => false | _ => true end.

  (** Truthiness of a value that may be [undefined] or [null]. *)
Definition truthy_opt (s : option string) : bool :=
    match s with Some s => truthy s | None => false end.

  (** Truthiness of a nullable number: [null], [undefined] and [0] are falsy. *)
Definition truthy_num (n : option Z) : bool :=
    match n with Some n => negb (n =? 0) | None => false end.

  (** [a || b] on strings that may be absent. *)
Definition or_else (a : option string) (b : string) : string :=
    match a with
    | Some s => if truthy s then s else b
    | None => b
    end.

  (** A thrown value: an [Error] object with its message, or any other
      value (a promise may reject with anything). *)
Inductive Thrown : Type :=
  | Error (message : string)
  | NonError.

  (** [new Error(x)] where [x] may be [undefined]: the message is then empty. *)
Definition new_Error (x : option string) : Thrown :=
    Error (match x with Some m => m | None => "" end).

End Js.

(** ** Computations with state and exceptions *)

(** The outcome of a call, and of a promise: a value, or a thrown value
    (a rejection). *)
Inductive Outcome (A : Type) : Type :=
| Returned (a : A)
| Threw (e : Js.Thrown).

Arguments Returned {A} a.
Arguments Threw {A} e.

(** A computation over a state [S]: the state it leaves behind is kept
    also when it throws, as the writes of a JavaScript function are. *)
Definition M (S A : Type) : Type := S -> Outcome A * S.

Definition ret {S A} (a : A) : M S A := fun s => (Returned a, s).

Definition bind {S A B} (m : M S A) (k : A -> M S B) : M S B :=
  fun s => match m s with
           | (Returned a, s') => k a s'
           | (Threw e, s') => (Threw e, s')
           end.

Definition throw {S A} (e : Js.Thrown) : M S A := fun s => (Threw e, s).

(** [try { m } catch (e) { h e }] *)
Definition try_catch {S A} (m : M S A) (h : Js.Thrown -> M S A) : M S A :=
  fun s => match m s with
           | (Returned a, s') => (Returned a, s')
           | (Threw e, s') => h e s'
           end.

(** [try { m } finally { f }] *)
Definition try_finally {S A} (m : M S A) (f : M S unit) : M S A :=
  fun s => match m s with
           | (r, s') => match f s' with
                        | (Returned _, s'') => (r, s'')
                        | (Threw e, s'') => (Threw e, s'')
                        end
           end.

(** Lifting an outcome of the platform (a promise being awaited). *)
Definition await {S A} (r : Outcome A) : M S A := fun s => (r, s).

Definition gets {S A} (f : S -> A) : M S A := fun s => (Returned (f s), s).

Definition modify {S} (f : S -> S) : M S unit := fun s => (Returned tt, f s).

(** A [let] variable of a function body that closures and handlers of the
    body read and write: the state is extended with it for the body. *)
Definition with_local {S L A} (init : L) (m : M (S * L) A) : M S A :=
  fun s => match m (s, init) with (r, (s', _)) => (r, s') end.

Definition lift {S L A} (m : M S A) : M (S * L) A :=
  fun sl => match m (fst sl) with (r, s') => (r, (s', snd sl)) end.

Definition get_local {S L} : M (S * L) L := gets snd.

Definition set_local {S L} (f : L -> L) : M (S * L) unit :=
  modify (fun sl => (fst sl, f (snd sl))).

Declare Scope js_scope.
Delimit Scope js_scope with js.
Notation "x <- m ;; k" := (bind m (fun x => k))
  (at level 61, m at next level, right associativity) : js_scope.
Notation "m ;; k" := (bind m (fun _ => k))
  (at level 61, right associativity) : js_scope.
Local Open Scope js_scope.

(** ** The data of [api.ts] and of the world it talks to *)

Inductive Role : Type := user | assistant.

(** [interface Message] of [api.ts] ([ApiMessage] in the store). *)
Module ApiMessage.
Record t : Type := { role : Role; content : string; timestamp : string }.
End ApiMessage.

(** The body of a response read with [response.json()], through the fields
    the code reads: [detail] of an error body, [conversation_id] and
    [messages] of a [Conversation].  [None] is an absent field. *)
Module Json.
Record t : Type := {
    detail : option string;
    conversation_id : option Z;
    messages : option (list ApiMessage.t)
  }.
End Json.

(** The reads of a response body: each [reader.read()] resolves with a
    value, here the text [decoder.decode(value, { stream: true })] makes of
    it, or rejects; after the last one the reader reports [done]. *)
Definition Stream : Type := list (Outcome string).

Module Response.
Record t : Type := {
    status : Z;
    json : Outcome Json.t;
    body : option Stream
  }.
Definition ok (r : t) : bool := (200 <=? status r) && (status r <=? 299).
End Response.

(** The requests of the session, by endpoint ([authorization] is the
    bearer token of the header, when the header is sent). *)
Inductive Request : Type :=
| POST_conversations (authorization : option string) (first_message : string)
| GET_conversation (authorization : option string) (conversationId : Z)
| POST_messages_stream (authorization : string) (conversationId : option Z)
    (content : string).

(** A line of the stream parsed with [JSON.parse], through the fields the
    code reads: [type], [content] and [error], each a string when present. *)
Module Parsed.
Record t : Type := {
    type : option string;
    content : option string;
    error : option string
  }.
End Parsed.

(** What one call runs against: the platform and the server.
    [JSON_parse] throws on text that is not JSON, returns [None] for the
    JSON [null] and otherwise the fields of the value; [Date_now] gives the
    successive readings of the clock; [fetch] is the reply to each request. *)
Record World : Type := {
  window : bool;
  JSON_parse : string -> Outcome (option Parsed.t);
  Date_now : nat -> Z;
  fetch : Request -> Outcome Response.t
}.

(** The mutable surroundings of the code: a store (of a type [St] the
    transport layer knows nothing of), the two keys of [localStorage], the
    page location once redirected, the requests issued so far and the number
    of clock readings taken. *)
Record Env (St : Type) : Type := {
  store : St;
  localStorage_user : option string;
  localStorage_access_token : option string;
  location_href : option string;
  requests : list Request;
  ticks : nat
}.

Arguments store {St} e.
Arguments localStorage_user {St} e.
Arguments localStorage_access_token {St} e.
Arguments location_href {St} e.
Arguments requests {St} e.
Arguments ticks {St} e.

Section EnvUpdates.
Context {St : Type}.

Definition with_store (f : St -> St) (e : Env St) : Env St :=
    {| store := f (store e);
       localStorage_user := localStorage_user e;
       localStorage_access_token := localStorage_access_token e;
       location_href := location_href e;
       requests := requests e;
       ticks := ticks e |}.

Definition with_access_token (t : option string) (e : Env St) : Env St :=
    {| store := store e;
       localStorage_user := localStorage_user e;
       localStorage_access_token := t;
       location_href := location_href e;
       requests := requests e;
       ticks := ticks e |}.

Definition with_href (h : string) (e : Env St) : Env St :=
    {| store := store e;
       localStorage_user := localStorage_user e;
       localStorage_access_token := localStorage_access_token e;
       location_href := Some h;
       requests := requests e;
       ticks := ticks e |}.

Definition with_request (r : Request) (e : Env St) : Env St :=
    {| store := store e;
       localStorage_user := localStorage_user e;
       localStorage_access_token := localStorage_access_token e;
       location_href := location_href e;
       requests := requests e ++ [r];
       ticks := ticks e |}.

Definition with_tick (e : Env St) : Env St :=
    {| store := store e;
       localStorage_user := localStorage_user e;
       localStorage_access_token := localStorage_access_token e;
       location_href := location_href e;
       requests := requests e;
       ticks := S (ticks e) |}.

End EnvUpdates.


(** ** [api.ts]: the transport functions and the stream protocol loop *)

Module Api.

Section Transport.
Context {St : Type}.
Variable w : World.

(** [getAuthToken]: the stored token, [null] without a window. *)
Definition getAuthToken : M (Env St) (option string) :=
  gets (fun e => if window w then localStorage_access_token e else None).

Definition removeAuthToken : M (Env St) unit :=
  if window w then modify (with_access_token None) else ret tt.

(** The header [Authorization] is spread into the headers only for a
    truthy token. *)
Definition bearer (token : option string) : option string :=
  if Js.truthy_opt token then token else None.

(** [fetch]: the request goes out and the reply of the server comes back. *)
Definition do_fetch (r : Request) : M (Env St) Response.t :=
  modify (with_request r) ;;
  await (fetch w r).

(** [apiCall]: a request with the stored token; a reply with status 401
    drops the token, redirects to the login page and throws. *)
Definition apiCall (endpoint : option string -> Request) : M (Env St) Response.t :=
  token <- getAuthToken ;;
  response <- do_fetch (endpoint (bearer token)) ;;
  if Response.status response =? 401 then
    removeAuthToken ;;
    (if window w then modify (with_href "/login") else ret tt) ;;
    throw (Js.Error "Unauthorized")
  else
    ret response.

Definition createConversation (firstMessage : string) : M (Env St) Json.t :=
  response <- apiCall (fun auth => POST_conversations auth firstMessage) ;;
  if negb (Response.ok response) then
    error <- await (Response.json response) ;;
    throw (Js.Error (Js.or_else (Json.detail error) "Failed to create conversation"))
  else
    await (Response.json response).

Definition getConversation (conversationId : Z) : M (Env St) Json.t :=
  response <- apiCall (fun auth => GET_conversation auth conversationId) ;;
  if negb (Response.ok response) then
    throw (Js.Error "Failed to fetch conversation")
  else
    await (Response.json response).

(** [sendMessage] of [api.ts]: opens the stream of the reply. *)
Definition sendMessage (conversationId : option Z) (content : string)
  : M (Env St) (option Stream) :=
  token <- getAuthToken ;;
  match token with
  | Some token' =>
      if Js.truthy token' then
        response <- do_fetch (POST_messages_stream token' conversationId content) ;;
        if negb (Response.ok response) then
          error <- await (Response.json response) ;;
          throw (Js.Error (Js.or_else (Json.detail error) "Failed to send message"))
        else
          ret (Response.body response)
      else throw (Js.Error "No auth token available")
  | None => throw (Js.Error "No auth token available")
  end.

(** *** [streamChat] *)

Variable onChunk : string -> M (Env St) unit.
Variable onComplete : option (string -> M (Env St) unit).
Variable onError : option (option string -> M (Env St) unit).

(** How the body of the [for] loop over the lines ends: with the next line,
    or with the [return] of the function. *)
Inductive LineExit : Type := NextLine | ReturnFromFunction.

(** The [switch] on [parsed.type]; the variable [fullMessage] of the
    function is the local part of the state. *)
Definition streamChat_switch (parsed : option Parsed.t)
  : M (Env St * string) LineExit :=
  match parsed with
  | None => throw (Js.Error "Cannot read properties of null (reading 'type')")
  | Some parsed =>
      match Parsed.type parsed with
      | Some type =>
          if (type =? "assistant_chunk")%string then
            match Parsed.content parsed with
            | Some content =>
                if Js.truthy content then
                  set_local (fun fullMessage => fullMessage ++ content) ;;
                  lift (onChunk content) ;;
                  ret NextLine
                else ret NextLine
            | None => ret NextLine
            end
          else if (type =? "assistant_complete")%string then
            match onComplete with
            | Some onComplete =>
                fullMessage <- get_local ;;
                lift (onComplete fullMessage) ;;
                ret NextLine
            | None => ret NextLine
            end
          else if (type =? "done")%string then
            ret ReturnFromFunction
          else if (type =? "error")%string then
            match onError with
            | Some onError => lift (onError (Parsed.error parsed))
            | None => ret tt
            end ;;
            throw (Js.new_Error (Parsed.error parsed))
          else ret NextLine
      | None => ret NextLine
      end
  end.

(** The body of [for (const line of lines)]: the [catch] around the parse
    and the [switch] takes every thrown value and goes on with the next
    line. *)
Definition streamChat_line (line : string) : M (Env St * string) LineExit :=
  if Js.startsWith "data: " line then
    let data := Js.trim (Js.slice 6 line) in
    if (data =? "")%string then ret NextLine
    else
      try_catch
        (parsed <- await (JSON_parse w data) ;;
         streamChat_switch parsed)
        (fun e => ret NextLine)
  else ret NextLine.

Fixpoint streamChat_lines (lines : list string) : M (Env St * string) LineExit :=
  match lines with
  | [] => ret NextLine
  | line :: lines' =>
      exit <- streamChat_line line ;;
      match exit with
      | NextLine => streamChat_lines lines'
      | ReturnFromFunction => ret ReturnFromFunction
      end
  end.

(** The [while (true)] loop over the reads: the end of the list is the read
    that reports [done]. *)
Fixpoint streamChat_reads (reads : Stream) : M (Env St * string) unit :=
  match reads with
  | [] => ret tt
  | read :: reads' =>
      chunk <- await read ;;
      exit <- streamChat_lines (Js.split Js.newline chunk) ;;
      match exit with
      | NextLine => streamChat_reads reads'
      | ReturnFromFunction => ret tt
      end
  end.

Definition releaseLock : M (Env St * string) unit := ret tt.

Definition streamChat (conversationId : option Z) (message : string)
  : M (Env St) unit :=
  try_catch
    (stream <- sendMessage conversationId message ;;
     match stream with
     | None => throw (Js.Error "No stream received")
     | Some stream =>
         with_local ""
           (try_finally (streamChat_reads stream) releaseLock)
     end)
    (fun error =>
       match onError with
       | Some onError =>
           onError (Some (match error with
                          | Js.Error message => message
                          | Js.NonError => "Unknown streaming error"
                          end))
       | None => ret tt
       end ;;
       throw error).

End Transport.

End Api.


(** ** [chat-store.ts]: the chat store *)

(** [created_at] is the ISO text of a clock reading for a message made by
    the store, and the text the server sent for a loaded one. *)
Inductive Timestamp : Type :=
| toISOString (date : Z)
| from_server (timestamp : string).

Module Message.
Record t : Type := {
  id : Z;
  role : Role;
  content : string;
  created_at : Timestamp
}.
End Message.

Module ChatState.
Record t : Type := {
  messages : list Message.t;
  isLoading : bool;
  isStreaming : bool;
  currentMessage : string;
  streamingMessage : string;
  currentConversationId : option Z
}.
End ChatState.

Module ChatStore.

Import ChatState.

Definition State : Type := Env ChatState.t.

(** The state the store is created with. *)
Definition initial : ChatState.t :=
  {| messages := [];
     isLoading := false;
     isStreaming := false;
     currentMessage := "";
     streamingMessage := "";
     currentConversationId := None |}.

(** [set(...)] with a partial state or with a function of the state. *)
Definition set (f : ChatState.t -> ChatState.t) : M State unit :=
  modify (with_store f).

Definition get : M State ChatState.t := gets store.

(** The partial states the actions pass to [set], in the order of the
    source. *)

(** [{ messages: [...state.messages, message] }] *)
Definition append_message (m : Message.t) (s : ChatState.t) : ChatState.t :=
  {| messages := messages s ++ [m];
     isLoading := isLoading s;
     isStreaming := isStreaming s;
     currentMessage := currentMessage s;
     streamingMessage := streamingMessage s;
     currentConversationId := currentConversationId s |}.

(** [{ isLoading: loading }] *)
Definition put_isLoading (loading : bool) (s : ChatState.t) : ChatState.t :=
  {| messages := messages s;
     isLoading := loading;
     isStreaming := isStreaming s;
     currentMessage := currentMessage s;
     streamingMessage := streamingMessage s;
     currentConversationId := currentConversationId s |}.

(** [{ isLoading: l, isStreaming: b }] *)
Definition put_busy (loading streaming : bool) (s : ChatState.t) : ChatState.t :=
  {| messages := messages s;
     isLoading := loading;
     isStreaming := streaming;
     currentMessage := currentMessage s;
     streamingMessage := streamingMessage s;
     currentConversationId := currentConversationId s |}.

(** [{ streamingMessage: message }] *)
Definition put_streamingMessage (message : string) (s : ChatState.t) : ChatState.t :=
  {| messages := messages s;
     isLoading := isLoading s;
     isStreaming := isStreaming s;
     currentMessage := currentMessage s;
     streamingMessage := message;
     currentConversationId := currentConversationId s |}.

(** [{ currentConversationId: conversationId }] *)
Definition put_currentConversationId (conversationId : option Z) (s : ChatState.t)
  : ChatState.t :=
  {| messages := messages s;
     isLoading := isLoading s;
     isStreaming := isStreaming s;
     currentMessage := currentMessage s;
     streamingMessage := streamingMessage s;
     currentConversationId := conversationId |}.

(** [{ messages, currentConversationId: conversationId, isLoading: false }] *)
Definition put_loaded (msgs : list Message.t) (conversationId : Z) (s : ChatState.t)
  : ChatState.t :=
  {| messages := msgs;
     isLoading := false;
     isStreaming := isStreaming s;
     currentMessage := currentMessage s;
     streamingMessage := streamingMessage s;
     currentConversationId := Some conversationId |}.

(** [{ messages: [...state.messages, finalAssistantMessage],
       streamingMessage: '', isStreaming: false, isLoading: false }] *)
Definition put_completed (finalAssistantMessage : Message.t) (s : ChatState.t)
  : ChatState.t :=
  {| messages := messages s ++ [finalAssistantMessage];
     isLoading := false;
     isStreaming := false;
     currentMessage := currentMessage s;
     streamingMessage := "";
     currentConversationId := currentConversationId s |}.

(** *** The synchronous actions *)

Definition addMessage (message : Message.t) : M State unit :=
  set (append_message message).

Definition setLoading (loading : bool) : M State unit :=
  set (put_isLoading loading).

Definition setStreamingMessage (message : string) : M State unit :=
  set (put_streamingMessage message).

Definition appendToStreamingMessage (chunk : string) : M State unit :=
  set (fun state => put_streamingMessage (streamingMessage state ++ chunk) state).

Definition clearStreamingMessage : M State unit :=
  set (put_streamingMessage "").

(** [{ messages: [], streamingMessage: '', currentMessage: '',
       currentConversationId: null }] *)
Definition clearChat : M State unit :=
  set (fun s =>
         {| messages := [];
            isLoading := isLoading s;
            isStreaming := isStreaming s;
            currentMessage := "";
            streamingMessage := "";
            currentConversationId := None |}).

Definition setCurrentConversation (conversationId : option Z) : M State unit :=
  set (put_currentConversationId conversationId).

(** *** The asynchronous actions *)

Section Actions.
Variable w : World.

(** [Date.now()] and [new Date()]: the next reading of the clock. *)
Definition now : M State Z :=
  t <- gets (fun e => Date_now w (ticks e)) ;;
  modify with_tick ;;
  ret t.

(** [typeof window !== 'undefined' ? localStorage.getItem('user') : null] *)
Definition userData : M State (option string) :=
  gets (fun e => if window w then localStorage_user e else None).

(** [conversation.messages.map((msg, index) => ...)], each element reading
    the clock for its [id]. *)
Fixpoint map_messages (msgs : list ApiMessage.t) (index : Z)
  : M State (list Message.t) :=
  match msgs with
  | [] => ret []
  | msg :: msgs' =>
      t <- now ;;
      rest <- map_messages msgs' (index + 1) ;;
      ret ({| Message.id := t + index;
              Message.role := ApiMessage.role msg;
              Message.content := ApiMessage.content msg;
              Message.created_at := from_server (ApiMessage.timestamp msg) |}
           :: rest)
  end.

Definition loadConversation (conversationId : Z) : M State unit :=
  set (put_isLoading true) ;;
  try_catch
    (userData <- userData ;;
     (if negb (Js.truthy_opt userData)
      then throw (Js.Error "User not authenticated") else ret tt) ;;
     conversation <- Api.getConversation w conversationId ;;
     messages <- match Json.messages conversation with
                 | Some msgs => map_messages msgs 0
                 | None =>
                     throw (Js.Error
                       "Cannot read properties of undefined (reading 'map')")
                 end ;;
     set (put_loaded messages conversationId))
    (fun error => set (put_isLoading false)).

(** The three handlers [sendMessage] gives to [streamChat]. *)
Definition onChunk (chunk : string) : M State unit :=
  set (fun state => put_streamingMessage (streamingMessage state ++ chunk) state).

Definition onComplete (fullMessage : string) : M State unit :=
  t <- now ;;
  d <- now ;;
  let finalAssistantMessage :=
    {| Message.id := t + 1;
       Message.role := assistant;
       Message.content := fullMessage;
       Message.created_at := toISOString d |} in
  set (put_completed finalAssistantMessage).

Definition onError (error : option string) : M State unit :=
  set (put_busy false false) ;;
  throw (Js.new_Error error).

Definition sendMessage (message : string)
    (onConversationCreated : option (option Z -> M State unit))
  : M State unit :=
  state <- get ;;
  let currentConversationId := currentConversationId state in
  set (put_busy true true) ;;
  try_catch
    (userData <- userData ;;
     match userData with
     | Some userData' =>
         if Js.truthy userData' then
           (* const user = JSON.parse(userData): only its throwing matters *)
           await (JSON_parse w userData') ;;
           conversationId <-
             (if negb (Js.truthy_num currentConversationId) then
                newConversation <- Api.createConversation w message ;;
                let conversationId := Json.conversation_id newConversation in
                set (put_currentConversationId conversationId) ;;
                match onConversationCreated with
                | Some onConversationCreated => onConversationCreated conversationId
                | None => ret tt
                end ;;
                ret conversationId
              else ret currentConversationId) ;;
           t <- now ;;
           d <- now ;;
           let userMessage :=
             {| Message.id := t;
                Message.role := user;
                Message.content := message;
                Message.created_at := toISOString d |} in
           set (append_message userMessage) ;;
           set (put_streamingMessage "") ;;
           Api.streamChat w onChunk (Some onComplete) (Some onError)
             conversationId message
         else throw (Js.Error "User not authenticated")
     | None => throw (Js.Error "User not authenticated")
     end)
    (fun error =>
       set (put_busy false false) ;;
       throw error).

End Actions.

End ChatStore.


(** ** The submit handler of the chat component *)

Module ChatInterface.

Import ChatState.

(** The state of the component that the handler reads and writes. *)
Record Component : Type := {
  input : string;
  shouldAutoScroll : bool
}.

Definition setInput (value : string) : M (ChatStore.State * Component) unit :=
  set_local (fun c => {| input := value; shouldAutoScroll := shouldAutoScroll c |}).

Definition setShouldAutoScroll (b : bool) : M (ChatStore.State * Component) unit :=
  set_local (fun c => {| input := input c; shouldAutoScroll := b |}).

Section Handler.
Variable w : World.

(** The property [onConversationCreated] of the component. *)
Variable onConversationCreated : option Z -> M ChatStore.State unit.

(** [handleSubmit]: its guard reads the input of the component and the two
    busy flags of the store. *)
Definition handleSubmit : M (ChatStore.State * Component) unit :=
  input <- gets (fun sc => input (snd sc)) ;;
  isLoading <- gets (fun sc => isLoading (store (fst sc))) ;;
  isStreaming <- gets (fun sc => isStreaming (store (fst sc))) ;;
  if negb (Js.truthy (Js.trim input)) || isLoading || isStreaming then ret tt
  else
    let messageContent := Js.trim input in
    setInput "" ;;
    setShouldAutoScroll true ;;
    try_catch
      (lift (ChatStore.sendMessage w messageContent
               (Some (fun newConversationId =>
                        onConversationCreated newConversationId))))
      (fun error => setInput messageContent).

End Handler.

End ChatInterface.


(** ** An instance of [JSON.parse] for the lines of the wire format

    [JSON.parse] belongs to the platform and is a parameter of the model
    ([JSON_parse] of a [World]).  To run the model on actual text, here is
    a parser for the fragment of JSON the protocol uses: an object whose
    members are strings, whole numbers, [true], [false] or [null], and the
    literal [null] itself.  Strings may use the one-character escapes.
    Text outside the fragment (nested values, unicode escapes, numbers with
    a fraction or an exponent, a [content] or [error] that is not a string)
    is reported as a syntax error, which for such text differs from the
    platform's parser. *)

Module WireJson.

Definition quote : ascii := "034"%char.
Definition backslash : ascii := "092"%char.

Inductive Token : Type :=
| LBrace | RBrace | Colon | Comma
| Str (s : string)
| Bare (s : string).

Inductive LexState : Type :=
| Outside
| InString (acc : string)
| InEscape (acc : string)
| InBare (acc : string).

Definition snoc (s : string) (c : ascii) : string := s ++ String c EmptyString.

(** The white space of JSON: tab, line feed, carriage return and space. *)
Definition isSpace (c : ascii) : bool :=
  let n := nat_of_ascii c in
  (n =? 9)%nat || (n =? 10)%nat || (n =? 13)%nat || (n =? 32)%nat.

(** One character met outside of a string and of a bare word. *)
Definition lex_outside (c : ascii) : option (list Token * LexState) :=
  if isSpace c then Some ([], Outside)
  else if Ascii.eqb c "{" then Some ([LBrace], Outside)
  else if Ascii.eqb c "}" then Some ([RBrace], Outside)
  else if Ascii.eqb c ":" then Some ([Colon], Outside)
  else if Ascii.eqb c "," then Some ([Comma], Outside)
  else if Ascii.eqb c quote then Some ([], InString "")
  else Some ([], InBare (String c "")).

Definition unescape (c : ascii) : option ascii :=
  if Ascii.eqb c quote then Some quote
  else if Ascii.eqb c backslash then Some backslash
  else if Ascii.eqb c "/" then Some "/"%char
  else if Ascii.eqb c "b" then Some "008"%char
  else if Ascii.eqb c "f" then Some "012"%char
  else if Ascii.eqb c "n" then Some "010"%char
  else if Ascii.eqb c "r" then Some "013"%char
  else if Ascii.eqb c "t" then Some "009"%char
  else None.

Definition lex_step (st : LexState) (c : ascii) : option (list Token * LexState) :=
  match st with
  | Outside => lex_outside c
  | InString acc =>
      if Ascii.eqb c quote then Some ([Str acc], Outside)
      else if Ascii.eqb c backslash then Some ([], InEscape acc)
      else if (nat_of_ascii c <? 32)%nat then None
      else Some ([], InString (snoc acc c))
  | InEscape acc =>
      match unescape c with
      | Some c' => Some ([], InString (snoc acc c'))
      | None => None
      end
  | InBare acc =>
      if isSpace c || Ascii.eqb c "{" || Ascii.eqb c "}"
         || Ascii.eqb c ":" || Ascii.eqb c "," || Ascii.eqb c quote
      then match lex_outside c with
           | Some (toks, st') => Some (Bare acc :: toks, st')
           | None => None
           end
      else Some ([], InBare (snoc acc c))
  end.

Fixpoint lex (st : LexState) (s : string) : option (list Token) :=
  match s with
  | EmptyString =>
      match st with
      | Outside => Some []
      | InBare acc => Some [Bare acc]
      | InString _ | InEscape _ => None
      end
  | String c rest =>
      match lex_step st c with
      | Some (toks, st') =>
          match lex st' rest with
          | Some more => Some (toks ++ more)%list
          | None => None
          end
      | None => None
      end
  end.

Definition isDigit (c : ascii) : bool :=
  let n := nat_of_ascii c in (48 <=? n)%nat && (n <=? 57)%nat.

Fixpoint allDigits (s : string) : bool :=
  match s with
  | EmptyString => true
  | String c rest => isDigit c && allDigits rest
  end.

(** A whole number without sign: [0], or digits that do not start with [0]. *)
Definition isNatural (s : string) : bool :=
  match s with
  | EmptyString => false
  | String c rest =>
      if Ascii.eqb c "0" then (rest =? "")%string
      else isDigit c && allDigits rest
  end.

(** The bare words of the fragment: the three literals and whole numbers. *)
Definition isLiteral (s : string) : bool :=
  (s =? "null")%string || (s =? "true")%string || (s =? "false")%string
  || match s with
     | String "-" rest => isNatural rest
     | _ => isNatural s
     end.

(** A member value: a string, or a literal (which is not a string). *)
Definition value_of (t : Token) : option (option string) :=
  match t with
  | Str s => Some (Some s)
  | Bare s => if isLiteral s then Some None else None
  | _ => None
  end.

(** Writing one member into the fields read by the code; a later member
    of the same name replaces an earlier one. *)
Definition put_member (key : string) (value : option string) (p : Parsed.t)
  : option Parsed.t :=
  if (key =? "type")%string then
    Some {| Parsed.type := value;
            Parsed.content := Parsed.content p;
            Parsed.error := Parsed.error p |}
  else if (key =? "content")%string then
    match value with
    | Some _ =>
        Some {| Parsed.type := Parsed.type p;
                Parsed.content := value;
                Parsed.error := Parsed.error p |}
    | None => None
    end
  else if (key =? "error")%string then
    match value with
    | Some _ =>
        Some {| Parsed.type := Parsed.type p;
                Parsed.content := Parsed.content p;
                Parsed.error := value |}
    | None => None
    end
  else Some p.

Definition no_fields : Parsed.t :=
  {| Parsed.type := None; Parsed.content := None; Parsed.error := None |}.

(** The members after the opening brace or after a comma. *)
Fixpoint members (fuel : nat) (toks : list Token) (p : Parsed.t) : option Parsed.t :=
  match fuel with
  | O => None
  | S fuel' =>
      match toks with
      | Str key :: Colon :: v :: rest =>
          match value_of v with
          | Some value =>
              match put_member key value p with
              | Some p' =>
                  match rest with
                  | [RBrace] => Some p'
                  | Comma :: rest' => members fuel' rest' p'
                  | _ => None
                  end
              | None => None
              end
          | None => None
          end
      | _ => None
      end
  end.

Definition parse_tokens (toks : list Token) : option (option Parsed.t) :=
  match toks with
  | [Bare s] =>
      if (s =? "null")%string then Some None
      else if isLiteral s then Some (Some no_fields) else None
  | [Str _] => Some (Some no_fields)
  | [LBrace; RBrace] => Some (Some no_fields)
  | LBrace :: toks' =>
      match members (List.length toks') toks' no_fields with
      | Some p => Some (Some p)
      | None => None
      end
  | _ => None
  end.

Definition parse (text : string) : Outcome (option Parsed.t) :=
  match lex Outside text with
  | Some toks =>
      match parse_tokens toks with
      | Some v => Returned v
      | None => Threw (Js.Error "SyntaxError")
      end
  | None => Threw (Js.Error "SyntaxError")
  end.

(** Writing the lines of the wire format. *)
Definition quoted (s : string) : string :=
  String quote s ++ String quote EmptyString.

Definition line_chunk (content : string) : string :=
  "data: {" ++ quoted "type" ++ ":" ++ quoted "assistant_chunk" ++ ","
  ++ quoted "content" ++ ":" ++ quoted content ++ "}".

Definition line_complete : string :=
  "data: {" ++ quoted "type" ++ ":" ++ quoted "assistant_complete" ++ "}".

Definition line_done : string :=
  "data: {" ++ quoted "type" ++ ":" ++ quoted "done" ++ "}".

Definition line_error (message : string) : string :=
  "data: {" ++ quoted "type" ++ ":" ++ quoted "error" ++ ","
  ++ quoted "error" ++ ":" ++ quoted message ++ "}".

(** Lines joined into the text of one read, each ended by a line feed. *)
Fixpoint lines (ls : list string) : string :=
  match ls with
  | [] => EmptyString
  | l :: ls' => l ++ String Js.newline (lines ls')
  end.

End WireJson.


(** ** The events of a stream and what the store makes of them *)

(** The events of the protocol.  [complete] carries no text on the wire:
    the text given to the completion handler is the one [streamChat] has
    accumulated. *)
Inductive StreamEvent : Type :=
| chunk (content : string)
| complete
| done
| error (message : option string).

Section Events.
Variable w : World.

Import ChatState.

(** The event a line of a read stands for, as [streamChat] decides it:
    the prefix, the trimmed payload, [JSON.parse] and the [type] field. *)
Definition event_of_line (line : string) : option StreamEvent :=
  if Js.startsWith "data: " line then
    let data := Js.trim (Js.slice 6 line) in
    if (data =? "")%string then None
    else
      match JSON_parse w data with
      | Returned (Some parsed) =>
          match Parsed.type parsed with
          | Some type =>
              if (type =? "assistant_chunk")%string then
                match Parsed.content parsed with
                | Some content => if Js.truthy content then Some (chunk content) else None
                | None => None
                end
              else if (type =? "assistant_complete")%string then Some complete
              else if (type =? "done")%string then Some done
              else if (type =? "error")%string then Some (error (Parsed.error parsed))
              else None
          | None => None
          end
      | _ => None
      end
  else None.

Fixpoint events_of_lines (lines : list string) : list StreamEvent :=
  match lines with
  | [] => []
  | line :: lines' =>
      match event_of_line line with
      | Some ev => ev :: events_of_lines lines'
      | None => events_of_lines lines'
      end
  end.

(** The events of a stream given by the texts of its reads. *)
Fixpoint events (texts : list string) : list StreamEvent :=
  match texts with
  | [] => []
  | text :: texts' => (events_of_lines (Js.split Js.newline text) ++ events texts')%list
  end.

(** The rest of this section is the view of the loop by events: what each
    handler of the store does to the surroundings, and the fold of a list of
    events.  That the loop of [streamChat], run with these handlers over the
    texts of a stream, does what the fold does to the events of the texts
    is lemma [streamChat_reads_events] below. *)

(** What the handlers of the store do to the surroundings. *)
Definition chunk_received (content : string) (e : ChatStore.State) : ChatStore.State :=
  with_store (fun state => ChatStore.put_streamingMessage
                             (streamingMessage state ++ content) state) e.

(** The message the completion handler appends, at clock reading [n]. *)
Definition assistantMessage (fullMessage : string) (n : nat) : Message.t :=
  {| Message.id := Date_now w n + 1;
     Message.role := assistant;
     Message.content := fullMessage;
     Message.created_at := toISOString (Date_now w (S n)) |}.

Definition completed (fullMessage : string) (e : ChatStore.State) : ChatStore.State :=
  with_store
    (ChatStore.put_completed (assistantMessage fullMessage (ticks e)))
    (with_tick (with_tick e)).

Definition failed (e : ChatStore.State) : ChatStore.State :=
  with_store (ChatStore.put_busy false false) e.

(** One event met by the loop of [streamChat] run with the handlers of
    the store; the second component of the state is [fullMessage]. *)
Definition on_event (ev : StreamEvent) (s : ChatStore.State * string)
  : Api.LineExit * (ChatStore.State * string) :=
  match ev with
  | chunk content =>
      (Api.NextLine, (chunk_received content (fst s), snd s ++ content))
  | complete => (Api.NextLine, (completed (snd s) (fst s), snd s))
  | done => (Api.ReturnFromFunction, s)
  | error _ => (Api.NextLine, (failed (fst s), snd s))
  end.

Fixpoint run_events (evs : list StreamEvent) (s : ChatStore.State * string)
  : Api.LineExit * (ChatStore.State * string) :=
  match evs with
  | [] => (Api.NextLine, s)
  | ev :: evs' =>
      match on_event ev s with
      | (Api.NextLine, s') => run_events evs' s'
      | (Api.ReturnFromFunction, s') => (Api.ReturnFromFunction, s')
      end
  end.

(** The surroundings after the events of a stream, from the state [e] in
    which the stream was opened. *)
Definition fold_events (evs : list StreamEvent) (e : ChatStore.State)
  : ChatStore.State :=
  fst (snd (run_events evs (e, ""))).

End Events.


(** ** A send that reaches the protocol loop *)

Section Sending.
Variable w : World.

Import ChatState.

(** A callback that returns and leaves the surroundings as they are (the
    component hands the new id to its parent). *)
Definition quiet (cb : option (option Z -> M ChatStore.State unit)) : Prop :=
  match cb with
  | Some f => forall id e, f id e = (Returned tt, e)
  | None => True
  end.

Definition token_of (e : ChatStore.State) : string :=
  match localStorage_access_token e with Some t => t | None => "" end.

(** The request [createConversation] issues from [e]. *)
Definition create_request (e : ChatStore.State) (message : string) : Request :=
  POST_conversations (Api.bearer (localStorage_access_token e)) message.

(** The conversation a send from [e] streams into: the current one, or
    the one the server creates. *)
Definition conversation_of (e : ChatStore.State) (message : string) : option Z :=
  if Js.truthy_num (currentConversationId (store e)) then
    currentConversationId (store e)
  else
    match fetch w (create_request e message) with
    | Returned r =>
        match Response.json r with
        | Returned j => Json.conversation_id j
        | Threw _ => None
        end
    | Threw _ => None
    end.

Definition stream_request (e : ChatStore.State) (message : string) : Request :=
  POST_messages_stream (token_of e) (conversation_of e message) message.

(** The send of [message] from [e] reaches the loop over a stream whose
    reads resolve with [texts]: there is a window with a stored user that
    parses; there is a current conversation, or the server creates one and
    the callback is quiet; there is a token and the server answers the
    stream request with a body. *)
Record opens_stream (e : ChatStore.State) (message : string)
    (cb : option (option Z -> M ChatStore.State unit)) (texts : list string) : Prop := {
  opens_window : window w = true;
  opens_user :
    exists u v, localStorage_user e = Some u /\ Js.truthy u = true
                /\ JSON_parse w u = Returned v;
  opens_conversation :
    Js.truthy_num (currentConversationId (store e)) = true
    \/ (quiet cb
        /\ exists r j, fetch w (create_request e message) = Returned r
                       /\ Response.ok r = true
                       /\ Response.json r = Returned j);
  opens_token :
    exists t, localStorage_access_token e = Some t /\ Js.truthy t = true;
  opens_reply :
    exists r, fetch w (stream_request e message) = Returned r
              /\ Response.ok r = true
              /\ Response.body r = Some (map Returned texts)
}.

(** The message the store appends for the user, at clock reading [n]. *)
Definition userMessage (message : string) (n : nat) : Message.t :=
  {| Message.id := Date_now w n;
     Message.role := user;
     Message.content := message;
     Message.created_at := toISOString (Date_now w (S n)) |}.

(** The surroundings in which the loop starts. *)
Definition opened (e : ChatStore.State) (message : string) : ChatStore.State :=
  let busy := with_store (ChatStore.put_busy true true) e in
  let ready :=
    if Js.truthy_num (currentConversationId (store e)) then busy
    else with_store (ChatStore.put_currentConversationId (conversation_of e message))
           (with_request (create_request e message) busy) in
  with_request (stream_request e message)
    (with_store (ChatStore.put_streamingMessage "")
       (with_store (ChatStore.append_message (userMessage message (ticks e)))
          (with_tick (with_tick ready)))).

End Sending.


(** ** Notions used to state the properties *)

(** The concatenation of the contents of chunks, in their order. *)
Fixpoint join (contents : list string) : string :=
  match contents with
  | [] => ""
  | content :: contents' => content ++ join contents'
  end.

(** The status [idle] of the session: both busy flags of the store are
    cleared. *)
Definition is_idle (s : ChatState.t) : bool :=
  negb (ChatState.isLoading s) && negb (ChatState.isStreaming s).

(** The request [getConversation] issues from [e]. *)
Definition conversation_request (w : World) (e : ChatStore.State) (conversationId : Z)
  : Request :=
  GET_conversation
    (Api.bearer (if window w then localStorage_access_token e else None))
    conversationId.

(** The fetch of a conversation fails: the request is rejected, or the
    reply is not a success (status 401 included), or its body is not JSON. *)
Definition fetch_fails (w : World) (e : ChatStore.State) (conversationId : Z) : bool :=
  match fetch w (conversation_request w e conversationId) with
  | Threw _ => true
  | Returned r =>
      negb (Response.ok r)
      || match Response.json r with Threw _ => true | Returned _ => false end
  end.

(** The course of a reply: chunks, then at most one [complete], then at
    most one [done]. *)
Definition ending (evs : list StreamEvent) : bool :=
  match evs with
  | [] | [complete] | [done] | [complete; done] => true
  | _ => false
  end.

Fixpoint normal_course (evs : list StreamEvent) : bool :=
  match evs with
  | chunk _ :: evs' => normal_course evs'
  | _ => ending evs
  end.

(** The states of the surroundings reached from a fresh store by the
    operations of the session: [clearChat], [loadConversation] against any
    world, and the sends that reach the protocol loop on a stream whose
    events satisfy [course]; between operations the browser may change what
    is outside of the store. *)
Inductive reachable (course : list StreamEvent -> Prop) : ChatStore.State -> Prop :=
| reach_initial (e : ChatStore.State) :
    store e = ChatStore.initial -> reachable course e
| reach_clear (e : ChatStore.State) :
    reachable course e -> reachable course (snd (ChatStore.clearChat e))
| reach_load (e : ChatStore.State) (w : World) (conversationId : Z) :
    reachable course e ->
    reachable course (snd (ChatStore.loadConversation w conversationId e))
| reach_send (e : ChatStore.State) (w : World) (message : string)
    (cb : option (option Z -> M ChatStore.State unit)) (texts : list string) :
    reachable course e ->
    opens_stream w e message cb texts ->
    course (events w texts) ->
    reachable course (snd (ChatStore.sendMessage w message cb e))
| reach_surroundings (e e' : ChatStore.State) :
    reachable course e -> store e' = store e -> reachable course e'.


(** ** Sample worlds, to run the model *)

Module Sample.

Import ChatState.

(** A server that creates conversation 7 on request, knows no stored
    conversation, and answers a message with a stream of the given reads,
    in a browser with [WireJson.parse] for [JSON.parse]. *)
Definition server (texts : list string) : World :=
  {| window := true;
     JSON_parse := WireJson.parse;
     Date_now := fun n => 1700000000000 + Z.of_nat n;
     fetch := fun request =>
       match request with
       | POST_conversations _ _ =>
           Returned {| Response.status := 200;
                       Response.json :=
                         Returned {| Json.detail := None;
                                     Json.conversation_id := Some 7;
                                     Json.messages := Some [] |};
                       Response.body := None |}
       | GET_conversation _ _ =>
           Returned {| Response.status := 404;
                       Response.json :=
                         Returned {| Json.detail := Some "Conversation not found";
                                     Json.conversation_id := None;
                                     Json.messages := None |};
                       Response.body := None |}
       | POST_messages_stream _ _ _ =>
           Returned {| Response.status := 200;
                       Response.json := Threw (Js.Error "SyntaxError");
                       Response.body := Some (map Returned texts) |}
       end |}.

(** A network that is down: every request is rejected. *)
Definition offline : World :=
  {| window := true;
     JSON_parse := WireJson.parse;
     Date_now := fun n => 1700000000000 + Z.of_nat n;
     fetch := fun _ => Threw (Js.Error "Failed to fetch") |}.

(** A browser with a stored user and token around the store [s]. *)
Definition signed_in (s : ChatState.t) : ChatStore.State :=
  {| store := s;
     localStorage_user := Some "{}";
     localStorage_access_token := Some "token";
     location_href := None;
     requests := [];
     ticks := 0 |}.

(** A session in the middle of a reply: conversation 7, both flags set,
    the text ["A"] received so far. *)
Definition in_flight : ChatState.t :=
  {| messages := [];
     isLoading := true;
     isStreaming := true;
     currentMessage := "";
     streamingMessage := "A";
     currentConversationId := Some 7 |}.

(** A component with the given text typed in. *)
Definition typed (text : string) : ChatInterface.Component :=
  {| ChatInterface.input := text; ChatInterface.shouldAutoScroll := true |}.

(** A parent that does nothing with the id of a new conversation. *)
Definition parent (conversationId : option Z) : M ChatStore.State unit := ret tt.

(** Streams, as the texts of their reads. *)
Definition stream_A : list string :=
  [WireJson.lines [WireJson.line_chunk "A"]].

Definition stream_B : list string :=
  [WireJson.lines [WireJson.line_chunk "B"]].

Definition stream_A_boom : list string :=
  [WireJson.lines [WireJson.line_chunk "A"; WireJson.line_error "boom"]].

Definition stream_done : list string :=
  [WireJson.lines [WireJson.line_done]].

(** Two reads: the first chunk, then the second chunk and the completion. *)
Definition stream_A_B_complete : list string :=
  [WireJson.lines [WireJson.line_chunk "A"];
   WireJson.lines [WireJson.line_chunk "B"; WireJson.line_complete]].

Definition stream_Hel_lo : list string :=
  [WireJson.lines [WireJson.line_chunk "Hel"];
   WireJson.lines [WireJson.line_chunk "lo"]].

Definition stream_Hel_lo_complete : list string :=
  [WireJson.lines [WireJson.line_chunk "Hel"];
   WireJson.lines [WireJson.line_chunk "lo"; WireJson.line_complete]].

Definition stream_A_complete_B_complete : list string :=
  [WireJson.lines [WireJson.line_chunk "A"; WireJson.line_complete];
   WireJson.lines [WireJson.line_chunk "B"; WireJson.line_complete]].

End Sample.


(** * The rest of the code *)

(** ** Sends whose stream does not run to its end *)

(** [error instanceof Error ? error.message : 'Unknown streaming error'],
    the text the [catch] of [streamChat] hands to the error handler. *)
Definition message_of (error : Js.Thrown) : string :=
  match error with
  | Js.Error message => message
  | Js.NonError => "Unknown streaming error"
  end.

(** As [opens_stream], for a body whose reads may also reject. *)
Record opens_body (w : World) (e : ChatStore.State) (message : string)
    (cb : option (option Z -> M ChatStore.State unit)) (stream : Stream) : Prop := {
  body_window : window w = true;
  body_user :
    exists u v, localStorage_user e = Some u /\ Js.truthy u = true
                /\ JSON_parse w u = Returned v;
  body_conversation :
    Js.truthy_num (ChatState.currentConversationId (store e)) = true
    \/ (quiet cb
        /\ exists r j, fetch w (create_request e message) = Returned r
                       /\ Response.ok r = true
                       /\ Response.json r = Returned j);
  body_token :
    exists t, localStorage_access_token e = Some t /\ Js.truthy t = true;
  body_reply :
    exists r, fetch w (stream_request w e message) = Returned r
              /\ Response.ok r = true
              /\ Response.body r = Some stream
}.

(** What a function of [api.ts] throws on a refusal whose body it reads,
    [const error = await response.json(); throw new Error(error.detail ||
    fallback)]: an error with the detail of the body, or with the fallback
    text without one; when the body is not JSON, what [response.json()]
    rejects with. *)
Definition refused (r : Response.t) (fallback : string) : Js.Thrown :=
  match Response.json r with
  | Returned j => Js.Error (Js.or_else (Json.detail j) fallback)
  | Threw x => x
  end.

(** As [opens_body], up to the reply [r] to the stream request, whatever
    this reply is. *)
Record reaches_reply (w : World) (e : ChatStore.State) (message : string)
    (cb : option (option Z -> M ChatStore.State unit)) (r : Response.t) : Prop := {
  reply_window : window w = true;
  reply_user :
    exists u v, localStorage_user e = Some u /\ Js.truthy u = true
                /\ JSON_parse w u = Returned v;
  reply_conversation :
    Js.truthy_num (ChatState.currentConversationId (store e)) = true
    \/ (quiet cb
        /\ exists rc j, fetch w (create_request e message) = Returned rc
                        /\ Response.ok rc = true
                        /\ Response.json rc = Returned j);
  reply_token :
    exists t, localStorage_access_token e = Some t /\ Js.truthy t = true;
  reply_fetch : fetch w (stream_request w e message) = Returned r
}.

(** A stored user that lets [sendMessage] and [loadConversation] pass
    their first check. *)
Definition stored_user (w : World) (e : ChatStore.State) : option string :=
  if window w then localStorage_user e else None.

(** How a send that has opened its body ends, from the end of the loop
    over the reads: it returns, or it throws an error with the text of what
    the loop threw, both flags cleared by the error handler and by the
    [catch] of [sendMessage]. *)
Definition finish (r : Outcome unit * (ChatStore.State * string))
  : Outcome unit * ChatStore.State :=
  match fst r with
  | Returned _ => (Returned tt, fst (snd r))
  | Threw x =>
      (Threw (Js.Error (message_of x)),
       with_store (ChatStore.put_busy false false)
         (with_store (ChatStore.put_busy false false) (fst (snd r))))
  end.

(** The load of a conversation succeeds with the messages [msgs]: there is
    a stored user, and the server answers the request with a success whose
    body carries them. *)
Definition load_succeeds (w : World) (e : ChatStore.State) (conversationId : Z)
    (msgs : list ApiMessage.t) : Prop :=
  Js.truthy_opt (stored_user w e) = true
  /\ exists r j, fetch w (conversation_request w e conversationId) = Returned r
                 /\ Response.ok r = true
                 /\ Response.json r = Returned j
                 /\ Json.messages j = Some msgs.

(** The texts handed to the completion handler along a list of events:
    one for each [complete] met before a [done], each the concatenation of
    the chunks met so far. *)
Fixpoint completions (evs : list StreamEvent) (fullMessage : string) : list string :=
  match evs with
  | [] => []
  | chunk content :: evs' => completions evs' (fullMessage ++ content)
  | complete :: evs' => fullMessage :: completions evs' fullMessage
  | done :: _ => []
  | error _ :: evs' => completions evs' fullMessage
  end.

(** Whether a [complete] or an [error] is met before a [done]. *)
Fixpoint settles (evs : list StreamEvent) : bool :=
  match evs with
  | [] => false
  | chunk _ :: evs' => settles evs'
  | complete :: _ => true
  | done :: _ => false
  | error _ :: _ => true
  end.

(** Role and content of a message. *)
Definition said (m : Message.t) : Role * string :=
  (Message.role m, Message.content m).

(** The messages [loadConversation] makes of the fetched ones, the first
    at clock reading [n] and index [index]. *)
Fixpoint loaded (w : World) (n : nat) (index : Z) (msgs : list ApiMessage.t)
  : list Message.t :=
  match msgs with
  | [] => []
  | msg :: msgs' =>
      {| Message.id := Date_now w n + index;
         Message.role := ApiMessage.role msg;
         Message.content := ApiMessage.content msg;
         Message.created_at := from_server (ApiMessage.timestamp msg) |}
      :: loaded w (S n) (index + 1) msgs'
  end.

(** The surroundings with [n] more readings of the clock taken. *)
Fixpoint with_ticks {St : Type} (n : nat) (e : Env St) : Env St :=
  match n with
  | O => e
  | S n' => with_ticks n' (with_tick e)
  end.


(** ** [api.ts]: the functions outside of the chat session *)

(** [interface Conversation] of the conversation store: an entry of the
    list of conversations. *)
Module Conversation.
Record t : Type := {
  conversation_id : Z;
  user_id : Z;
  timestamp : string;
  first_message : string
}.
End Conversation.

(** The body of a reply read with [response.json()], through what the code
    reads of it: [detail] of an error body, and the entries of the array
    [getConversations] is annotated to return. *)
Module Body.
Record t : Type := {
  detail : option string;
  conversations : list Conversation.t
}.
End Body.

Module Reply.
Record t : Type := {
  status : Z;
  json : Outcome Body.t
}.
Definition ok (r : t) : bool := (200 <=? status r) && (status r <=? 299).
End Reply.

(** The requests of these functions, by endpoint. *)
Inductive Call : Type :=
| POST_login (username password : string)
| POST_register (username emailaddress password : string)
| GET_me (authorization : option string)
| POST_logout (authorization : option string)
| GET_conversations (authorization : option string)
| DELETE_conversation (authorization : option string) (conversationId : Z)
| POST_messages (authorization : option string) (conversationId : Z)
    (content : string).

(** The world of these functions: the one of the chat session, and the
    reply of the server to each of their requests. *)
Record Backend : Type := {
  world : World;
  reply : Call -> Outcome Reply.t
}.

(** The token these functions read: the stored one, none without a
    window. *)
Definition stored_token {St : Type} (b : Backend) (e : Env St) : option string :=
  if window (world b) then localStorage_access_token e else None.

(** The requests [deleteConversation] and [getConversations] issue from
    [e]. *)
Definition delete_request {St : Type} (b : Backend) (e : Env St) (id : Z) : Call :=
  DELETE_conversation (Api.bearer (stored_token b e)) id.

Definition list_request {St : Type} (b : Backend) (e : Env St) : Call :=
  GET_conversations (Api.bearer (stored_token b e)).

Module Rest.

Section Functions.
Context {St : Type}.
Variable b : Backend.

(** [setAuthToken]: stores the token when there is a window. *)
Definition setAuthToken (token : string) : M (Env St) unit :=
  if window (world b) then modify (with_access_token (Some token)) else ret tt.

(** [apiCall], for the endpoints of this section. *)
Definition apiCall (endpoint : option string -> Call) : M (Env St) Reply.t :=
  token <- Api.getAuthToken (world b) ;;
  response <- await (reply b (endpoint (Api.bearer token))) ;;
  if Reply.status response =? 401 then
    Api.removeAuthToken (world b) ;;
    (if window (world b) then modify (with_href "/login") else ret tt) ;;
    throw (Js.Error "Unauthorized")
  else
    ret response.

Definition loginUser (username password : string) : M (Env St) Body.t :=
  response <- await (reply b (POST_login username password)) ;;
  if negb (Reply.ok response) then
    error <- await (Reply.json response) ;;
    throw (Js.Error (Js.or_else (Body.detail error) "Login failed"))
  else
    await (Reply.json response).

Definition registerUser (username emailaddress password : string)
  : M (Env St) Body.t :=
  response <- await (reply b (POST_register username emailaddress password)) ;;
  if negb (Reply.ok response) then
    error <- await (Reply.json response) ;;
    throw (Js.Error (Js.or_else (Body.detail error) "Registration failed"))
  else
    await (Reply.json response).

Definition getCurrentUser : M (Env St) Body.t :=
  response <- apiCall GET_me ;;
  if negb (Reply.ok response) then
    throw (Js.Error "Failed to get current user")
  else
    await (Reply.json response).

Definition logoutUser : M (Env St) Body.t :=
  response <- apiCall POST_logout ;;
  if negb (Reply.ok response) then
    throw (Js.Error "Failed to logout")
  else
    Api.removeAuthToken (world b) ;;
    await (Reply.json response).

Definition getConversations : M (Env St) Body.t :=
  response <- apiCall GET_conversations ;;
  if negb (Reply.ok response) then
    throw (Js.Error "Failed to fetch conversations")
  else
    await (Reply.json response).

Definition deleteConversation (conversationId : Z) : M (Env St) Body.t :=
  response <- apiCall (fun auth => DELETE_conversation auth conversationId) ;;
  if negb (Reply.ok response) then
    throw (Js.Error "Failed to delete conversation")
  else
    await (Reply.json response).

Definition sendMessageNonStream (conversationId : Z) (content : string)
  : M (Env St) Body.t :=
  response <- apiCall (fun auth => POST_messages auth conversationId content) ;;
  if negb (Reply.ok response) then
    error <- await (Reply.json response) ;;
    throw (Js.Error (Js.or_else (Body.detail error) "Failed to send message"))
  else
    await (Reply.json response).

End Functions.

End Rest.


(** ** The conversation store *)

Module ConversationState.
Record t : Type := {
  conversations : list Conversation.t;
  activeConversationId : option Z;
  isLoading : bool
}.
End ConversationState.

(** [Partial<Conversation>]: the fields an update carries. *)
Module Partial.
Record t : Type := {
  conversation_id : option Z;
  user_id : option Z;
  timestamp : option string;
  first_message : option string
}.
End Partial.

Module ConversationStore.

Import ConversationState.

Definition State : Type := Env ConversationState.t.

Definition initial : ConversationState.t :=
  {| conversations := []; activeConversationId := None; isLoading := false |}.

Definition set (f : ConversationState.t -> ConversationState.t) : M State unit :=
  modify (with_store f).

Definition get : M State ConversationState.t := gets store.

(** [{ ...conv, ...updates }] *)
Definition spread (conv : Conversation.t) (updates : Partial.t) : Conversation.t :=
  {| Conversation.conversation_id :=
       match Partial.conversation_id updates with
       | Some v => v | None => Conversation.conversation_id conv end;
     Conversation.user_id :=
       match Partial.user_id updates with
       | Some v => v | None => Conversation.user_id conv end;
     Conversation.timestamp :=
       match Partial.timestamp updates with
       | Some v => v | None => Conversation.timestamp conv end;
     Conversation.first_message :=
       match Partial.first_message updates with
       | Some v => v | None => Conversation.first_message conv end |}.

(** [a === id] for a nullable [a]. *)
Definition is_id (a : option Z) (id : Z) : bool :=
  match a with Some a => a =? id | None => false end.

Definition put_conversations (cs : list Conversation.t) (s : ConversationState.t)
  : ConversationState.t :=
  {| conversations := cs;
     activeConversationId := activeConversationId s;
     isLoading := isLoading s |}.

Definition put_isLoading (loading : bool) (s : ConversationState.t)
  : ConversationState.t :=
  {| conversations := conversations s;
     activeConversationId := activeConversationId s;
     isLoading := loading |}.

Definition setConversations (cs : list Conversation.t) : M State unit :=
  set (put_conversations cs).

Definition addConversation (conversation : Conversation.t) : M State unit :=
  set (fun state => put_conversations (conversation :: conversations state) state).

Definition updateConversation (id : Z) (updates : Partial.t) : M State unit :=
  set (fun state =>
         put_conversations
           (map (fun conv =>
                   if Conversation.conversation_id conv =? id
                   then spread conv updates else conv)
                (conversations state))
           state).

Definition setActiveConversation (id : option Z) : M State unit :=
  set (fun s =>
         {| conversations := conversations s;
            activeConversationId := id;
            isLoading := isLoading s |}).

Definition setLoading (loading : bool) : M State unit :=
  set (put_isLoading loading).

Definition getActiveConversation : M State (option Conversation.t) :=
  state <- get ;;
  ret (find (fun conv =>
               is_id (activeConversationId state) (Conversation.conversation_id conv))
            (conversations state)).

Section Actions.
Variable b : Backend.

Definition deleteConversation (id : Z) : M State unit :=
  try_catch
    (Rest.deleteConversation b id ;;
     set (fun state =>
            {| conversations :=
                 filter (fun conv => negb (Conversation.conversation_id conv =? id))
                        (conversations state);
               activeConversationId :=
                 if is_id (activeConversationId state) id then None
                 else activeConversationId state;
               isLoading := isLoading state |}))
    (fun error => throw error).

Definition refreshConversations : M State unit :=
  try_catch
    (set (put_isLoading true) ;;
     conversations <- Rest.getConversations b ;;
     set (fun s =>
            {| conversations := Body.conversations conversations;
               activeConversationId := activeConversationId s;
               isLoading := false |}))
    (fun error => set (put_isLoading false)).

End Actions.

End ConversationStore.


(** ** More sample worlds *)

Module Cases.

(** The messages of the stored conversation 5. *)
Definition history : list ApiMessage.t :=
  [ {| ApiMessage.role := user;
       ApiMessage.content := "ping";
       ApiMessage.timestamp := "t1" |};
    {| ApiMessage.role := assistant;
       ApiMessage.content := "pong";
       ApiMessage.timestamp := "t2" |} ].

(** The server of [Sample.server] with a stored conversation 5, answering
    a message with the given reads, some of which may reject. *)
Definition server_of (stream : Stream) : World :=
  {| window := true;
     JSON_parse := WireJson.parse;
     Date_now := fun n => 1700000000000 + Z.of_nat n;
     fetch := fun request =>
       match request with
       | POST_conversations _ _ =>
           Returned {| Response.status := 200;
                       Response.json :=
                         Returned {| Json.detail := None;
                                     Json.conversation_id := Some 7;
                                     Json.messages := Some [] |};
                       Response.body := None |}
       | GET_conversation _ _ =>
           Returned {| Response.status := 200;
                       Response.json :=
                         Returned {| Json.detail := None;
                                     Json.conversation_id := Some 5;
                                     Json.messages := Some history |};
                       Response.body := None |}
       | POST_messages_stream _ _ _ =>
           Returned {| Response.status := 200;
                       Response.json := Threw (Js.Error "SyntaxError");
                       Response.body := Some stream |}
       end |}.

(** The reply of the sample servers to the creation of a conversation. *)
Definition created_body : Json.t :=
  {| Json.detail := None;
     Json.conversation_id := Some 7;
     Json.messages := Some [] |}.

Definition created : Response.t :=
  {| Response.status := 200;
     Response.json := Returned created_body;
     Response.body := None |}.

(** A refusal: a status and an error body. *)
Definition error_body (detail : option string) : Json.t :=
  {| Json.detail := detail;
     Json.conversation_id := None;
     Json.messages := None |}.

Definition refusal (status : Z) (detail : option string) : Response.t :=
  {| Response.status := status;
     Response.json := Returned (error_body detail);
     Response.body := None |}.

(** A server that answers every request of the chat session with a
    refusal. *)
Definition refusing (status : Z) (detail : option string) : World :=
  {| window := true;
     JSON_parse := WireJson.parse;
     Date_now := fun n => 1700000000000 + Z.of_nat n;
     fetch := fun _ => Returned (refusal status detail) |}.

(** The reply of a gateway in front of a server that is down: status 502
    and a page that is not JSON. *)
Definition bad_gateway : Response.t :=
  {| Response.status := 502;
     Response.json := Threw (Js.Error "SyntaxError");
     Response.body := None |}.

(** A gateway that answers every request of the chat session so. *)
Definition gateway : World :=
  {| window := true;
     JSON_parse := WireJson.parse;
     Date_now := fun n => 1700000000000 + Z.of_nat n;
     fetch := fun _ => Returned bad_gateway |}.

(** A server that creates the conversation 7 and answers every other
    request as the gateway does. *)
Definition creating_only : World :=
  {| window := true;
     JSON_parse := WireJson.parse;
     Date_now := fun n => 1700000000000 + Z.of_nat n;
     fetch := fun request =>
       match request with
       | POST_conversations _ _ => Returned created
       | _ => Returned bad_gateway
       end |}.

(** The no-break space U+00A0, the ideographic space U+3000 and the byte
    order mark U+FEFF, in UTF-8. *)
Definition no_break_space : string := String "194" (String "160" "").

Definition ideographic_space : string :=
  String "227" (String "128" (String "128" "")).

Definition byte_order_mark : string :=
  String "239" (String "187" (String "191" "")).

(** The zero width space U+200B, which is not white space. *)
Definition zero_width_space : string :=
  String "226" (String "128" (String "139" "")).

(** A browser with a stored user but no token. *)
Definition without_token (s : ChatState.t) : ChatStore.State :=
  {| store := s;
     localStorage_user := Some "{}";
     localStorage_access_token := None;
     location_href := None;
     requests := [];
     ticks := 0 |}.

(** A browser with nothing stored. *)
Definition signed_out (s : ChatState.t) : ChatStore.State :=
  {| store := s;
     localStorage_user := None;
     localStorage_access_token := None;
     location_href := None;
     requests := [];
     ticks := 0 |}.

(** A session in conversation 7 at rest. *)
Definition at_rest : ChatState.t :=
  {| ChatState.messages := [];
     ChatState.isLoading := false;
     ChatState.isStreaming := false;
     ChatState.currentMessage := "";
     ChatState.streamingMessage := "";
     ChatState.currentConversationId := Some 7 |}.

(** A parent whose callback throws. *)
Definition failing_parent (conversationId : option Z) : M ChatStore.State unit :=
  throw (Js.Error "parent").

(** A stream cut by a failure of the network after its first chunk. *)
Definition stream_A_then_cut : Stream :=
  [Returned (WireJson.lines [WireJson.line_chunk "A"]);
   Threw (Js.Error "network error")].

(** A stream whose read after [done] would fail. *)
Definition stream_done_then_cut : Stream :=
  [Returned (WireJson.lines [WireJson.line_chunk "A"; WireJson.line_complete;
                             WireJson.line_done]);
   Threw (Js.Error "network error")].

(** A truncated line between two whole ones. *)
Definition truncated : string :=
  "data: {" ++ WireJson.quoted "type" ++ ":" ++ String WireJson.quote "assist".

(** Entries of the list of conversations. *)
Definition entry (id : Z) (first : string) : Conversation.t :=
  {| Conversation.conversation_id := id;
     Conversation.user_id := 1;
     Conversation.timestamp := "t";
     Conversation.first_message := first |}.

Definition listing : ConversationState.t :=
  {| ConversationState.conversations := [entry 3 "c"; entry 2 "b"; entry 1 "a"];
     ConversationState.activeConversationId := Some 2;
     ConversationState.isLoading := false |}.

Definition browser (s : ConversationState.t) : ConversationStore.State :=
  {| store := s;
     localStorage_user := Some "{}";
     localStorage_access_token := Some "token";
     location_href := None;
     requests := [];
     ticks := 0 |}.

(** A backend that answers every request with the given status and body. *)
Definition answering (status : Z) (json : Outcome Body.t) : Backend :=
  {| world := Sample.offline;
     reply := fun _ =>
       Returned {| Reply.status := status; Reply.json := json |} |}.

Definition no_body : Body.t :=
  {| Body.detail := None; Body.conversations := [] |}.

Definition answer (status : Z) (json : Outcome Body.t) : Reply.t :=
  {| Reply.status := status; Reply.json := json |}.

(** An update of the first message only. *)
Definition renamed (first : string) : Partial.t :=
  {| Partial.conversation_id := None;
     Partial.user_id := None;
     Partial.timestamp := None;
     Partial.first_message := Some first |}.

(** A backend whose network is down. *)
Definition unreachable : Backend :=
  {| world := Sample.offline;
     reply := fun _ => Threw (Js.Error "Failed to fetch") |}.

End Cases.


(** * Theorems *)

(** ** The platform primitives on examples *)

Example split_two_lines :
  Js.split Js.newline (String "a" (String Js.newline (String "b" (String Js.newline ""))))
  = ["a"; "b"; ""].
Proof. reflexivity. Qed.

Example trim_blank : Js.trim "   " = "".
Proof. reflexivity. Qed.

Example trim_inner : Js.trim "  a b  " = "a b".
Proof. reflexivity. Qed.

(** White space outside ASCII is stripped as well, at both ends and there
    only. *)
Example trim_no_break_space : Js.trim Cases.no_break_space = "".
Proof. reflexivity. Qed.

Example trim_wide :
  Js.trim (Cases.byte_order_mark ++ " a" ++ Cases.no_break_space ++ "b"
           ++ Cases.ideographic_space ++ Cases.no_break_space)
  = "a" ++ Cases.no_break_space ++ "b".
Proof. reflexivity. Qed.

Example trim_zero_width_space :
  Js.trim (" " ++ Cases.zero_width_space ++ " ") = Cases.zero_width_space.
Proof. reflexivity. Qed.

Example parse_chunk :
  WireJson.parse (Js.trim (Js.slice 6 (WireJson.line_chunk "A")))
  = Returned (Some {| Parsed.type := Some "assistant_chunk";
                      Parsed.content := Some "A";
                      Parsed.error := None |}).
Proof. reflexivity. Qed.

Example parse_truncated :
  WireJson.parse (String "{" (WireJson.quoted "type" ++ ":" ++ String WireJson.quote "assist"))
  = Threw (Js.Error "SyntaxError").
Proof. reflexivity. Qed.

Example parse_null : WireJson.parse "null" = Returned None.
Proof. reflexivity. Qed.


(** ** The loop of [streamChat] folds the events of the stream *)

Section Refinement.
Variable w : World.

Import ChatState.

Local Notation "'line_of'" :=
  (Api.streamChat_line w ChatStore.onChunk
     (Some (ChatStore.onComplete w)) (Some ChatStore.onError)).
Local Notation "'lines_of'" :=
  (Api.streamChat_lines w ChatStore.onChunk
     (Some (ChatStore.onComplete w)) (Some ChatStore.onError)).
Local Notation "'reads_of'" :=
  (Api.streamChat_reads w ChatStore.onChunk
     (Some (ChatStore.onComplete w)) (Some ChatStore.onError)).

Lemma streamChat_line_event (line : string) (e : ChatStore.State) (fm : string) :
  line_of line (e, fm)
  = match event_of_line w line with
    | Some ev => (Returned (fst (on_event w ev (e, fm))), snd (on_event w ev (e, fm)))
    | None => (Returned Api.NextLine, (e, fm))
    end.
Proof.
  unfold Api.streamChat_line, event_of_line.
  destruct (Js.startsWith "data: " line); [|reflexivity].
  destruct (Js.trim (Js.slice 6 line) =? "")%string; [reflexivity|].
  unfold try_catch, bind, await.
  destruct (JSON_parse w (Js.trim (Js.slice 6 line))) as [[parsed|]|thrown];
    [|reflexivity|reflexivity].
  unfold Api.streamChat_switch.
  destruct (Parsed.type parsed) as [type|]; [|reflexivity].
  destruct (type =? "assistant_chunk")%string.
  { destruct (Parsed.content parsed) as [content|]; [|reflexivity].
    destruct (Js.truthy content); reflexivity. }
  destruct (type =? "assistant_complete")%string; [reflexivity|].
  destruct (type =? "done")%string; [reflexivity|].
  destruct (type =? "error")%string; reflexivity.
Qed.

Lemma streamChat_lines_events (lines : list string) (s : ChatStore.State * string) :
  lines_of lines s
  = (Returned (fst (run_events w (events_of_lines w lines) s)),
     snd (run_events w (events_of_lines w lines) s)).
Proof.
  revert s; induction lines as [|line lines IH]; intros [e fm]; [reflexivity|].
  cbn [Api.streamChat_lines events_of_lines]. unfold bind.
  rewrite streamChat_line_event.
  destruct (event_of_line w line) as [ev|]; [|apply IH].
  destruct ev; cbn [run_events on_event fst snd]; solve [apply IH | reflexivity].
Qed.

Lemma run_events_app (evs1 evs2 : list StreamEvent) (s : ChatStore.State * string) :
  run_events w (evs1 ++ evs2) s
  = match run_events w evs1 s with
    | (Api.NextLine, s') => run_events w evs2 s'
    | (Api.ReturnFromFunction, s') => (Api.ReturnFromFunction, s')
    end.
Proof.
  revert s; induction evs1 as [|ev evs1 IH]; intros s; [reflexivity|].
  cbn [app run_events].
  destruct (on_event w ev s) as [[|] s']; [apply IH|reflexivity].
Qed.

Lemma streamChat_reads_events (texts : list string) (s : ChatStore.State * string) :
  reads_of (map Returned texts) s
  = (Returned tt, snd (run_events w (events w texts) s)).
Proof.
  revert s; induction texts as [|text texts IH]; intros s; [reflexivity|].
  cbn [map Api.streamChat_reads events]. unfold bind, await.
  rewrite streamChat_lines_events, run_events_app.
  destruct (run_events w (events_of_lines w (Js.split Js.newline text)) s)
    as [[|] s']; cbn [fst snd]; [apply IH|reflexivity].
Qed.

(** [streamChat] run with the handlers of the store on a stream that was
    opened and whose reads all resolve: it returns, and the surroundings
    are the fold of the events. *)
Lemma streamChat_opened (conversationId : option Z) (message : string)
    (texts : list string) (e e' : ChatStore.State) :
  Api.sendMessage w conversationId message e
    = (Returned (Some (map Returned texts)), e') ->
  Api.streamChat w ChatStore.onChunk (Some (ChatStore.onComplete w))
    (Some ChatStore.onError) conversationId message e
  = (Returned tt, fold_events w (events w texts) e').
Proof.
  intros Hopen. unfold Api.streamChat, try_catch, bind. rewrite Hopen.
  unfold with_local, try_finally, Api.releaseLock, ret.
  rewrite streamChat_reads_events. unfold fold_events, ChatStore.State in *.
  destruct (run_events w (events w texts) (e', "")) as [x [e'' fm]]. reflexivity.
Qed.

End Refinement.


(** ** The send up to the protocol loop *)

Section SendingLemmas.
Variable w : World.

Import ChatState.

Lemma ok_not_401 (r : Response.t) :
  Response.ok r = true -> (Response.status r =? 401) = false.
Proof.
  unfold Response.ok. intros H. apply andb_true_iff in H as [_ H].
  apply Z.leb_le in H. apply Z.eqb_neq. lia.
Qed.

Lemma createConversation_ok (e : ChatStore.State) (message : string)
    (r : Response.t) (j : Json.t) :
  window w = true ->
  fetch w (create_request e message) = Returned r ->
  Response.ok r = true ->
  Response.json r = Returned j ->
  Api.createConversation w message e
  = (Returned j, with_request (create_request e message) e).
Proof.
  intros Hw Hfetch Hok Hjson.
  unfold Api.createConversation, Api.apiCall, Api.getAuthToken, Api.do_fetch,
    bind, gets, modify, await, ret.
  rewrite Hw. fold (create_request e message). rewrite Hfetch.
  rewrite (ok_not_401 r Hok), Hok. cbn [negb]. rewrite Hjson. reflexivity.
Qed.

Lemma sendMessage_ok (e : ChatStore.State) (conversationId : option Z)
    (message token : string) (r : Response.t) (stream : Stream) :
  window w = true ->
  localStorage_access_token e = Some token ->
  Js.truthy token = true ->
  fetch w (POST_messages_stream token conversationId message) = Returned r ->
  Response.ok r = true ->
  Response.body r = Some stream ->
  Api.sendMessage w conversationId message e
  = (Returned (Some stream),
     with_request (POST_messages_stream token conversationId message) e).
Proof.
  intros Hw Htoken Htruthy Hfetch Hok Hbody.
  unfold Api.sendMessage, Api.getAuthToken, Api.do_fetch,
    bind, gets, modify, await, ret.
  rewrite Hw, Htoken, Htruthy, Hfetch, Hok, Hbody. reflexivity.
Qed.

(** The send that reaches the loop returns, and leaves the fold of the
    events of the stream over the surroundings the loop started in. *)
Lemma sendMessage_opens (e : ChatStore.State) (message : string)
    (cb : option (option Z -> M ChatStore.State unit)) (texts : list string) :
  opens_stream w e message cb texts ->
  ChatStore.sendMessage w message cb e
  = (Returned tt, fold_events w (events w texts) (opened w e message)).
Proof.
  intros [Hw (u & v & Hu & Hut & Hparse) Hconv (t & Htok & Htt)
            (r & Hfetch & Hok & Hbody)].
  unfold ChatStore.sendMessage, ChatStore.get, ChatStore.set,
    ChatStore.userData, ChatStore.now.
  unfold try_catch, bind, gets, modify, await, ret.
  cbn [store localStorage_user with_store ticks].
  rewrite Hw, Hu, Hut, Hparse.
  unfold stream_request, token_of in Hfetch. rewrite Htok in Hfetch.
  unfold opened, stream_request, token_of. rewrite Htok.
  unfold conversation_of in *.
  destruct Hconv as [Hcur | (Hq & rc & j & Hcreate & Hcok & Hjson)].
  - rewrite Hcur in *. cbn [negb].
    erewrite streamChat_opened; [reflexivity|].
    apply sendMessage_ok with (r := r); assumption.
  - destruct (Js.truthy_num (currentConversationId (store e))) eqn:Hcur.
    + cbn [negb].
      erewrite streamChat_opened; [reflexivity|].
      apply sendMessage_ok with (r := r); assumption.
    + cbn [negb]. rewrite Hcreate, Hjson in *.
      rewrite (createConversation_ok _ _ rc j); try assumption.
      destruct cb as [f|]; [cbn in Hq; rewrite Hq|];
        (erewrite streamChat_opened;
         [reflexivity | apply sendMessage_ok with (r := r); assumption]).
Qed.

(** The store at the start of the loop: both flags set, the message of the
    user appended, the buffer empty. *)
Lemma opened_store (e : ChatStore.State) (message : string) :
  messages (store (opened w e message))
    = (messages (store e) ++ [userMessage w message (ticks e)])%list
  /\ isLoading (store (opened w e message)) = true
  /\ isStreaming (store (opened w e message)) = true
  /\ streamingMessage (store (opened w e message)) = ""
  /\ currentConversationId (store (opened w e message)) = conversation_of w e message
  /\ ticks (opened w e message) = S (S (ticks e)).
Proof.
  unfold opened, conversation_of.
  destruct (Js.truthy_num (currentConversationId (store e)));
    repeat split; reflexivity.
Qed.

End SendingLemmas.


(** ** Runs of chunks *)

Lemma append_nil_r (s : string) : s ++ "" = s.
Proof. induction s as [|c s IH]; [reflexivity|]. cbn. now rewrite IH. Qed.

Lemma append_assoc (a b c : string) : (a ++ b) ++ c = a ++ (b ++ c).
Proof. induction a as [|x a IH]; [reflexivity|]. cbn. now rewrite IH. Qed.

Section Chunks.
Variable w : World.

Import ChatState.

Lemma chunk_received_nil (e : ChatStore.State) : chunk_received "" e = e.
Proof.
  destruct e as [[ms l s cm sm cid] u t h rs n].
  unfold chunk_received, with_store, ChatStore.put_streamingMessage. cbn.
  now rewrite append_nil_r.
Qed.

Lemma chunk_received_twice (a b : string) (e : ChatStore.State) :
  chunk_received b (chunk_received a e) = chunk_received (a ++ b) e.
Proof.
  destruct e as [[ms l s cm sm cid] u t h rs n].
  unfold chunk_received, with_store, ChatStore.put_streamingMessage. cbn.
  now rewrite append_assoc.
Qed.

(** A run of chunks leaves the loop going, the buffer and [fullMessage]
    both extended by the concatenation of the contents. *)
Lemma run_events_chunks (contents : list string) (e : ChatStore.State) (fm : string) :
  run_events w (map chunk contents) (e, fm)
  = (Api.NextLine, (chunk_received (join contents) e, fm ++ join contents)).
Proof.
  revert e fm; induction contents as [|c cs IH]; intros e fm.
  - cbn. now rewrite chunk_received_nil, append_nil_r.
  - cbn [map run_events on_event fst snd join]. rewrite IH.
    now rewrite chunk_received_twice, append_assoc.
Qed.

End Chunks.


(** ** Sample worlds open their streams *)

Lemma sample_opens (s : ChatState.t) (message : string) (texts : list string) :
  opens_stream (Sample.server texts) (Sample.signed_in s) message None texts.
Proof.
  split.
  - reflexivity.
  - exists "{}", (Some WireJson.no_fields). repeat split; reflexivity.
  - destruct (Js.truthy_num
                (ChatState.currentConversationId (store (Sample.signed_in s)))) eqn:H;
      [left; reflexivity|right].
    split; [exact I|]. eexists; eexists. repeat split; reflexivity.
  - exists "token". split; reflexivity.
  - eexists. repeat split; reflexivity.
Qed.


(** ** Loading a conversation *)

Section Loading.
Variable w : World.

Import ChatState.

(** Mapping the fetched messages reads the clock and nothing else. *)
Lemma map_messages_store (msgs : list ApiMessage.t) (index : Z)
    (e : ChatStore.State) :
  exists l e', ChatStore.map_messages w msgs index e = (Returned l, e')
               /\ store e' = store e.
Proof.
  revert index e; induction msgs as [|msg msgs IH]; intros index e.
  - exists [], e. split; reflexivity.
  - cbn [ChatStore.map_messages]. unfold ChatStore.now, bind, gets, modify, ret.
    destruct (IH (index + 1) (with_tick e)) as (l & e' & Hrun & Hstore).
    rewrite Hrun. eexists; eexists. split; [reflexivity|]. exact Hstore.
Qed.

Ltac unfold_load :=
  unfold ChatStore.loadConversation, ChatStore.set, ChatStore.userData,
    Api.getConversation, Api.apiCall, Api.getAuthToken, Api.do_fetch,
    Api.removeAuthToken;
  unfold try_catch, bind, gets, modify, await, ret, throw;
  cbn [localStorage_user localStorage_access_token with_store with_request store].

(** Whatever the world answers, [loadConversation] returns, clears
    [isLoading] and touches neither the buffer nor [isStreaming]. *)
Lemma loadConversation_soft (conversationId : Z) (e : ChatStore.State) :
  let r := ChatStore.loadConversation w conversationId e in
  fst r = Returned tt
  /\ streamingMessage (store (snd r)) = streamingMessage (store e)
  /\ isStreaming (store (snd r)) = isStreaming (store e)
  /\ isLoading (store (snd r)) = false.
Proof.
  unfold_load.
  destruct (if window w then localStorage_user e else None) as [u|];
    cbn [Js.truthy_opt negb]; [|repeat split].
  destruct (Js.truthy u); cbn [negb]; [|repeat split].
  match goal with
  | |- context [fetch w ?r] => destruct (fetch w r) as [resp|x]; [|repeat split]
  end.
  destruct (Response.status resp =? 401); [destruct (window w); repeat split|].
  destruct (Response.ok resp); cbn [negb]; [|repeat split].
  destruct (Response.json resp) as [j|x]; [|repeat split].
  destruct (Json.messages j) as [msgs|]; [|repeat split].
  match goal with
  | |- context [ChatStore.map_messages w msgs 0 ?e0] =>
      destruct (map_messages_store msgs 0 e0) as (l & e' & Hrun & Hstore);
      rewrite Hrun
  end.
  cbn [fst snd store with_store isLoading isStreaming streamingMessage
       ChatStore.put_loaded].
  rewrite Hstore. repeat split.
Qed.

(** When the fetch fails the transcript and the conversation id stay. *)
Lemma loadConversation_failed (conversationId : Z) (e : ChatStore.State) :
  fetch_fails w e conversationId = true ->
  let r := ChatStore.loadConversation w conversationId e in
  messages (store (snd r)) = messages (store e)
  /\ currentConversationId (store (snd r)) = currentConversationId (store e).
Proof.
  unfold fetch_fails, conversation_request. unfold_load.
  destruct (if window w then localStorage_user e else None) as [u|];
    cbn [Js.truthy_opt negb]; [|intros _; repeat split].
  destruct (Js.truthy u); cbn [negb]; [|intros _; repeat split].
  change (localStorage_access_token (with_store (ChatStore.put_isLoading true) e))
    with (localStorage_access_token e).
  match goal with
  | |- context [fetch w ?r] =>
      destruct (fetch w r) as [resp|x]; [|intros _; repeat split]
  end.
  destruct (Response.status resp =? 401);
    [intros _; destruct (window w); repeat split|].
  destruct (Response.ok resp); cbn [negb orb]; [|intros _; repeat split].
  destruct (Response.json resp) as [j|x]; [|intros _; repeat split].
  intros H; discriminate H.
Qed.

End Loading.


(** ** Streams in their normal course *)

(** Along a stream in its normal course, started with [isStreaming] set,
    the buffer holds text only while [isStreaming] is still set. *)
Lemma run_normal_course (w : World) (evs : list StreamEvent)
    (e : ChatStore.State) (fm : string) :
  ChatState.isStreaming (store e) = true ->
  normal_course evs = true ->
  ChatState.streamingMessage (store (fst (snd (run_events w evs (e, fm))))) <> "" ->
  ChatState.isStreaming (store (fst (snd (run_events w evs (e, fm))))) = true.
Proof.
  revert e fm; induction evs as [|ev evs IH]; intros e fm Hs Hc.
  - intros _. exact Hs.
  - destruct ev as [content| | |m].
    + cbn [run_events on_event fst snd]. apply IH; [exact Hs|exact Hc].
    + destruct evs as [|[| | |] [|? ?]]; try discriminate Hc;
        cbn; intros H; now elim H.
    + intros _. exact Hs.
    + discriminate Hc.
Qed.


(** ** The properties of the session *)

Section Session.

Import ChatState.

Ltac store_fields :=
  unfold fold_events;
  cbn [run_events on_event fst snd];
  unfold failed, completed, chunk_received;
  cbn [store ticks with_store with_tick messages isLoading isStreaming
       streamingMessage currentConversationId
       ChatStore.put_busy ChatStore.put_streamingMessage ChatStore.put_completed].

(** *** C1: a chunk, then an error event *)

(** C1, as the code has it: for every send whose stream carries
    [chunk "A"] and then [error "boom"], the transcript gains the message of
    the user and no message of the assistant, both busy flags end cleared,
    and the buffer still holds the partial text ["A"]: the error handler
    resets the flags only. *)
Theorem C1_error_keeps_partial_text (w : World) (e : ChatStore.State)
    (message : string) (cb : option (option Z -> M ChatStore.State unit))
    (texts : list string) :
  opens_stream w e message cb texts ->
  events w texts = [chunk "A"; error (Some "boom")] ->
  let e' := snd (ChatStore.sendMessage w message cb e) in
  messages (store e') = (messages (store e) ++ [userMessage w message (ticks e)])%list
  /\ streamingMessage (store e') = "A"
  /\ isLoading (store e') = false
  /\ isStreaming (store e') = false.
Proof.
  intros Hopen Hevents.
  rewrite (sendMessage_opens w e message cb texts Hopen), Hevents.
  destruct (opened_store w e message) as (Hm & _ & _ & Hb & _).
  store_fields. rewrite Hm, Hb. repeat split; reflexivity.
Qed.

(** C1 at the first send of a fresh, signed-in session. *)
Lemma C1_witness :
  let w := Sample.server Sample.stream_A_boom in
  let e := Sample.signed_in ChatStore.initial in
  let e' := snd (ChatStore.sendMessage w "hi" None e) in
  messages (store e') = (messages (store e) ++ [userMessage w "hi" (ticks e)])%list
  /\ streamingMessage (store e') = "A"
  /\ isLoading (store e') = false
  /\ isStreaming (store e') = false.
Proof.
  apply (C1_error_keeps_partial_text (Sample.server Sample.stream_A_boom)
           (Sample.signed_in ChatStore.initial) "hi" None Sample.stream_A_boom).
  - apply sample_opens.
  - vm_compute. reflexivity.
Defined.

(** C1 as stated fails: on the stream of the two lines [chunk "A"] and
    [error "boom"] the send ends with the buffer ["A"], not empty, and it
    returns to its caller instead of failing with ["boom"] (the [catch]
    around the parse of a line takes the error thrown for the event). *)
Lemma C1_counterexample :
  let w := Sample.server Sample.stream_A_boom in
  let run := ChatStore.sendMessage w "hi" None (Sample.signed_in ChatStore.initial) in
  events w Sample.stream_A_boom = [chunk "A"; error (Some "boom")]
  /\ streamingMessage (store (snd run)) = "A"
  /\ streamingMessage (store (snd run)) <> ""
  /\ fst run = Returned tt
  /\ fst run <> Threw (Js.Error "boom").
Proof. vm_compute. repeat split; discriminate. Qed.

(** *** C2: a stream with only [done] *)

(** C2, evaluated on the code: for every send whose stream carries only
    [done], the send returns, the transcript gains the message of the user
    and no message of the assistant, and both busy flags are left set:
    nothing on this path clears them. *)
Theorem C2_done_only_leaves_flags_set (w : World) (e : ChatStore.State)
    (message : string) (cb : option (option Z -> M ChatStore.State unit))
    (texts : list string) :
  opens_stream w e message cb texts ->
  events w texts = [done] ->
  let run := ChatStore.sendMessage w message cb e in
  fst run = Returned tt
  /\ messages (store (snd run))
     = (messages (store e) ++ [userMessage w message (ticks e)])%list
  /\ isLoading (store (snd run)) = true
  /\ isStreaming (store (snd run)) = true.
Proof.
  intros Hopen Hevents.
  rewrite (sendMessage_opens w e message cb texts Hopen), Hevents.
  destruct (opened_store w e message) as (Hm & Hl & Hs & _).
  store_fields. cbn [fst snd]. rewrite Hm, Hl, Hs. repeat split; reflexivity.
Qed.

(** C2 on the stream of the one line [data: {type: done}]: the session is
    not idle when the send has finished. *)
Lemma C2_witness :
  let w := Sample.server Sample.stream_done in
  let e := Sample.signed_in ChatStore.initial in
  let run := ChatStore.sendMessage w "hi" None e in
  events w Sample.stream_done = [done]
  /\ fst run = Returned tt
  /\ messages (store (snd run))
     = (messages (store e) ++ [userMessage w "hi" (ticks e)])%list
  /\ isLoading (store (snd run)) = true
  /\ isStreaming (store (snd run)) = true.
Proof.
  split; [vm_compute; reflexivity|].
  apply (C2_done_only_leaves_flags_set (Sample.server Sample.stream_done)
           (Sample.signed_in ChatStore.initial) "hi" None Sample.stream_done).
  - apply sample_opens.
  - vm_compute. reflexivity.
Defined.

(** *** C3: blank text *)

(** C3, as the code has it: the submit handler of the component drops an
    input that trims to empty before it calls the store: it returns with the
    surroundings (store, requests issued) and the component as they were. *)
Theorem C3_blank_input_is_dropped (w : World)
    (onConversationCreated : option Z -> M ChatStore.State unit)
    (e : ChatStore.State) (c : ChatInterface.Component) :
  Js.trim (ChatInterface.input c) = "" ->
  ChatInterface.handleSubmit w onConversationCreated (e, c) = (Returned tt, (e, c)).
Proof.
  intros Hblank. unfold ChatInterface.handleSubmit, bind, gets, ret.
  cbn [fst snd]. rewrite Hblank. reflexivity.
Qed.

(** C3 for a space, a no-break space and an ideographic space typed into
    a fresh session. *)
Lemma C3_witness :
  let blank := " " ++ Cases.no_break_space ++ Cases.ideographic_space in
  Js.trim (ChatInterface.input (Sample.typed blank)) = ""
  /\ ChatInterface.handleSubmit (Sample.server Sample.stream_A_B_complete)
       Sample.parent (Sample.signed_in ChatStore.initial, Sample.typed blank)
     = (Returned tt, (Sample.signed_in ChatStore.initial, Sample.typed blank)).
Proof.
  split; [reflexivity|].
  apply (C3_blank_input_is_dropped (Sample.server Sample.stream_A_B_complete)
           Sample.parent (Sample.signed_in ChatStore.initial)
           (Sample.typed (" " ++ Cases.no_break_space ++ Cases.ideographic_space))).
  reflexivity.
Defined.

(** C3 as stated fails for [sendMessage] of the store, which does not look
    at its text: called with three spaces it issues both requests and the
    transcript gains a blank message of the user and the reply. *)
Lemma C3_counterexample :
  let e := Sample.signed_in ChatStore.initial in
  let run := ChatStore.sendMessage (Sample.server Sample.stream_A_B_complete)
               "   " None e in
  Js.trim "   " = ""
  /\ requests e = []
  /\ requests (snd run)
     = [POST_conversations (Some "token") "   ";
        POST_messages_stream "token" (Some 7) "   "]
  /\ messages (store e) = []
  /\ map Message.content (messages (store (snd run))) = ["   "; "AB"].
Proof. vm_compute. repeat split. Qed.

(** *** C4: a send while busy *)

(** C4, as the code has it: the submit handler of the component drops a
    submit made while either busy flag of the store is set: it returns with
    the surroundings, the buffer in flight among them, and the component as
    they were. *)
Theorem C4_busy_submit_is_dropped (w : World)
    (onConversationCreated : option Z -> M ChatStore.State unit)
    (e : ChatStore.State) (c : ChatInterface.Component) :
  isLoading (store e) || isStreaming (store e) = true ->
  ChatInterface.handleSubmit w onConversationCreated (e, c) = (Returned tt, (e, c)).
Proof.
  intros Hbusy. unfold ChatInterface.handleSubmit, bind, gets, ret.
  cbn [fst snd]. rewrite <- orb_assoc, Hbusy, orb_true_r. reflexivity.
Qed.

(** C4 for a submit in the middle of a reply. *)
Lemma C4_witness :
  ChatInterface.handleSubmit (Sample.server Sample.stream_B) Sample.parent
    (Sample.signed_in Sample.in_flight, Sample.typed "again")
  = (Returned tt, (Sample.signed_in Sample.in_flight, Sample.typed "again")).
Proof.
  apply (C4_busy_submit_is_dropped (Sample.server Sample.stream_B) Sample.parent
           (Sample.signed_in Sample.in_flight) (Sample.typed "again")).
  reflexivity.
Defined.

(** C4 as stated fails for [sendMessage] of the store, which does not look
    at the flags: called in the middle of a reply, with ["A"] in the buffer,
    it empties the buffer and folds the chunk of its own stream into it. *)
Lemma C4_counterexample :
  let e := Sample.signed_in Sample.in_flight in
  let run := ChatStore.sendMessage (Sample.server Sample.stream_B) "again" None e in
  is_idle (store e) = false
  /\ streamingMessage (store e) = "A"
  /\ fst run = Returned tt
  /\ streamingMessage (store (snd run)) = "B"
  /\ map Message.content (messages (store (snd run))) = ["again"].
Proof. vm_compute. repeat split. Qed.

(** *** C5: clearing the chat *)

(** C5, as the code has it: from every state [clearChat] returns and
    leaves an empty transcript, an empty buffer and no conversation id; the
    two busy flags are as they were. *)
Theorem C5_clearChat_keeps_flags (e : ChatStore.State) :
  let run := ChatStore.clearChat e in
  fst run = Returned tt
  /\ messages (store (snd run)) = []
  /\ streamingMessage (store (snd run)) = ""
  /\ currentConversationId (store (snd run)) = None
  /\ isLoading (store (snd run)) = isLoading (store e)
  /\ isStreaming (store (snd run)) = isStreaming (store e).
Proof. repeat split. Qed.

(** C5 as stated fails: cleared in the middle of a reply, the session is
    still not idle. *)
Lemma C5_counterexample :
  let run := ChatStore.clearChat (Sample.signed_in Sample.in_flight) in
  messages (store (snd run)) = []
  /\ isLoading (store (snd run)) = true
  /\ isStreaming (store (snd run)) = true
  /\ is_idle (store (snd run)) = false.
Proof. vm_compute. repeat split. Qed.

(** *** C6: the buffer and the status *)

(** C6, as the code has it: in every state reached from a fresh store by
    [clearChat], [loadConversation] against any world and sends whose stream
    runs its normal course (chunks, then at most one [complete], then at
    most one [done]), the buffer holds text only while [isStreaming] is
    set. *)
Theorem C6_buffer_only_while_streaming (e : ChatStore.State) :
  reachable (fun evs => normal_course evs = true) e ->
  streamingMessage (store e) <> "" ->
  isStreaming (store e) = true.
Proof.
  induction 1 as [e Hinit|e _ IH|e w id _ IH|e w message cb texts _ IH Hopen Hcourse
                 |e e' _ IH Hstore].
  - rewrite Hinit. intros H. now elim H.
  - intros H. now elim H.
  - destruct (loadConversation_soft w id e) as (_ & Hb & Hs & _).
    rewrite Hb, Hs. exact IH.
  - rewrite (sendMessage_opens w e message cb texts Hopen).
    cbn [snd]. unfold fold_events.
    apply run_normal_course; [|exact Hcourse].
    now destruct (opened_store w e message) as (_ & _ & Hs & _).
  - rewrite Hstore. exact IH.
Qed.

(** C6 after a first send whose stream has delivered one chunk. *)
Lemma C6_witness :
  let e := snd (ChatStore.sendMessage (Sample.server Sample.stream_A) "hi" None
                  (Sample.signed_in ChatStore.initial)) in
  streamingMessage (store e) = "A" /\ isStreaming (store e) = true.
Proof.
  split; [reflexivity|].
  apply C6_buffer_only_while_streaming.
  - apply reach_send with (texts := Sample.stream_A).
    + apply reach_initial. reflexivity.
    + apply sample_opens.
    + reflexivity.
  - discriminate.
Defined.

(** C6 as stated fails: the state after a first send whose stream carries
    [chunk "A"] and then [error "boom"] is reached by an operation of the
    session, and in it the buffer holds ["A"] while both flags are cleared. *)
Lemma C6_counterexample :
  let e := snd (ChatStore.sendMessage (Sample.server Sample.stream_A_boom) "hi" None
                  (Sample.signed_in ChatStore.initial)) in
  reachable (fun _ => True) e
  /\ streamingMessage (store e) = "A"
  /\ isStreaming (store e) = false
  /\ is_idle (store e) = true.
Proof.
  split; [|repeat split].
  apply reach_send with (texts := Sample.stream_A_boom).
  - apply reach_initial. reflexivity.
  - apply sample_opens.
  - exact I.
Qed.

(** *** C7: chunks are folded in their order *)

(** C7: for every send whose stream carries the chunks [contents], the
    buffer at the end is their concatenation in that order; when a
    [complete] follows them, the text handed to the completion handler, which
    is the content of the message of the assistant it appends, is that
    concatenation. *)
Theorem C7_chunks_concatenate (w : World) (e : ChatStore.State)
    (message : string) (cb : option (option Z -> M ChatStore.State unit))
    (texts contents : list string) (completes : bool) :
  opens_stream w e message cb texts ->
  events w texts = (map chunk contents ++ if completes then [complete] else [])%list ->
  let e' := snd (ChatStore.sendMessage w message cb e) in
  if completes then
    messages (store e')
    = (messages (store e)
       ++ [userMessage w message (ticks e);
           assistantMessage w (join contents) (S (S (ticks e)))])%list
  else
    streamingMessage (store e') = join contents.
Proof.
  intros Hopen Hevents.
  rewrite (sendMessage_opens w e message cb texts Hopen), Hevents.
  destruct (opened_store w e message) as (Hm & _ & _ & Hb & _ & Ht).
  unfold fold_events. rewrite run_events_app, run_events_chunks.
  destruct completes; store_fields.
  - rewrite Hm, Ht, <- app_assoc. reflexivity.
  - rewrite Hb. reflexivity.
Qed.

(** C7 for the chunks ["Hel"] and ["lo"] arriving in two reads, without
    and with a completion after them. *)
Lemma C7_witness :
  let e := Sample.signed_in ChatStore.initial in
  streamingMessage
    (store (snd (ChatStore.sendMessage (Sample.server Sample.stream_Hel_lo)
                   "hi" None e)))
  = "Hello"
  /\ messages
       (store (snd (ChatStore.sendMessage
                      (Sample.server Sample.stream_Hel_lo_complete) "hi" None e)))
     = [userMessage (Sample.server Sample.stream_Hel_lo_complete) "hi" 0;
        assistantMessage (Sample.server Sample.stream_Hel_lo_complete) "Hello" 2].
Proof.
  split.
  - apply (C7_chunks_concatenate (Sample.server Sample.stream_Hel_lo)
             (Sample.signed_in ChatStore.initial) "hi" None Sample.stream_Hel_lo
             ["Hel"; "lo"] false).
    + apply sample_opens.
    + vm_compute. reflexivity.
  - apply (C7_chunks_concatenate (Sample.server Sample.stream_Hel_lo_complete)
             (Sample.signed_in ChatStore.initial) "hi" None
             Sample.stream_Hel_lo_complete ["Hel"; "lo"] true).
    + apply sample_opens.
    + vm_compute. reflexivity.
Defined.

(** *** C8: two chunks and a completion *)

(** C8: for every send whose stream carries [chunk "A"], [chunk "B"] and
    then [complete], the send returns, the transcript gains the message of
    the user followed by exactly one message of the assistant, of content
    ["AB"], and the buffer ends empty. *)
Theorem C8_one_assistant_message (w : World) (e : ChatStore.State)
    (message : string) (cb : option (option Z -> M ChatStore.State unit))
    (texts : list string) :
  opens_stream w e message cb texts ->
  events w texts = [chunk "A"; chunk "B"; complete] ->
  let run := ChatStore.sendMessage w message cb e in
  fst run = Returned tt
  /\ messages (store (snd run))
     = (messages (store e)
        ++ [userMessage w message (ticks e);
            assistantMessage w "AB" (S (S (ticks e)))])%list
  /\ Message.role (assistantMessage w "AB" (S (S (ticks e)))) = assistant
  /\ Message.content (assistantMessage w "AB" (S (S (ticks e)))) = "AB"
  /\ streamingMessage (store (snd run)) = "".
Proof.
  intros Hopen Hevents.
  rewrite (sendMessage_opens w e message cb texts Hopen), Hevents.
  destruct (opened_store w e message) as (Hm & _ & _ & Hb & _ & Ht).
  store_fields. cbn [fst snd]. rewrite Hm, Ht, <- app_assoc.
  repeat split; reflexivity.
Qed.

(** C8 for the two chunks arriving in two reads. *)
Lemma C8_witness :
  let w := Sample.server Sample.stream_A_B_complete in
  let e := Sample.signed_in ChatStore.initial in
  let run := ChatStore.sendMessage w "hi" None e in
  fst run = Returned tt
  /\ messages (store (snd run))
     = (messages (store e)
        ++ [userMessage w "hi" (ticks e);
            assistantMessage w "AB" (S (S (ticks e)))])%list
  /\ Message.role (assistantMessage w "AB" (S (S (ticks e)))) = assistant
  /\ Message.content (assistantMessage w "AB" (S (S (ticks e)))) = "AB"
  /\ streamingMessage (store (snd run)) = "".
Proof.
  apply (C8_one_assistant_message (Sample.server Sample.stream_A_B_complete)
           (Sample.signed_in ChatStore.initial) "hi" None Sample.stream_A_B_complete).
  - apply sample_opens.
  - vm_compute. reflexivity.
Defined.

(** *** C9: a load that fails *)

(** C9, as the code has it: for every conversation id and every state, if
    the fetch of [loadConversation] fails then the call returns without
    throwing, the transcript and the conversation id are as they were,
    [isLoading] is cleared and [isStreaming] is as it was. *)
Theorem C9_failed_load_is_soft (w : World) (conversationId : Z)
    (e : ChatStore.State) :
  fetch_fails w e conversationId = true ->
  let run := ChatStore.loadConversation w conversationId e in
  fst run = Returned tt
  /\ messages (store (snd run)) = messages (store e)
  /\ currentConversationId (store (snd run)) = currentConversationId (store e)
  /\ isLoading (store (snd run)) = false
  /\ isStreaming (store (snd run)) = isStreaming (store e).
Proof.
  intros Hfails.
  destruct (loadConversation_soft w conversationId e) as (Hr & _ & Hs & Hl).
  destruct (loadConversation_failed w conversationId e Hfails) as (Hm & Hc).
  repeat split; assumption.
Qed.

(** C9 for a fresh session and a network that is down. *)
Lemma C9_witness :
  let e := Sample.signed_in ChatStore.initial in
  let run := ChatStore.loadConversation Sample.offline 5 e in
  fetch_fails Sample.offline e 5 = true
  /\ fst run = Returned tt
  /\ messages (store (snd run)) = messages (store e)
  /\ currentConversationId (store (snd run)) = currentConversationId (store e)
  /\ isLoading (store (snd run)) = false
  /\ isStreaming (store (snd run)) = isStreaming (store e).
Proof.
  split; [reflexivity|].
  apply (C9_failed_load_is_soft Sample.offline 5 (Sample.signed_in ChatStore.initial)).
  reflexivity.
Defined.

(** C9 as stated fails: a load that fails in the middle of a reply leaves
    [isStreaming] set, so the session is not idle. *)
Lemma C9_counterexample :
  let e := Sample.signed_in Sample.in_flight in
  let run := ChatStore.loadConversation Sample.offline 5 e in
  fetch_fails Sample.offline e 5 = true
  /\ isStreaming (store (snd run)) = true
  /\ is_idle (store (snd run)) = false.
Proof. vm_compute. repeat split. Qed.

(** *** C10: events after a completion *)

(** C10: for every send whose stream carries the chunks [before], a
    [complete], the chunks [after] and possibly a second [complete], the
    chunks after the first completion are folded into the buffer and into
    the running full message: without the second [complete] the buffer ends
    as the concatenation of [after]; with it, a second message of the
    assistant is appended whose content is the concatenation of all the
    chunks since the start of the stream. *)
Theorem C10_events_after_complete (w : World) (e : ChatStore.State)
    (message : string) (cb : option (option Z -> M ChatStore.State unit))
    (texts before after : list string) (again : bool) :
  opens_stream w e message cb texts ->
  events w texts
  = (map chunk before ++ [complete] ++ map chunk after
     ++ if again then [complete] else [])%list ->
  let e' := snd (ChatStore.sendMessage w message cb e) in
  messages (store e')
  = (messages (store e)
     ++ [userMessage w message (ticks e);
         assistantMessage w (join before) (S (S (ticks e)))]
     ++ if again
        then [assistantMessage w (join before ++ join after)
                (S (S (S (S (ticks e)))))]
        else [])%list
  /\ streamingMessage (store e') = (if again then "" else join after).
Proof.
  intros Hopen Hevents.
  rewrite (sendMessage_opens w e message cb texts Hopen), Hevents.
  destruct (opened_store w e message) as (Hm & _ & _ & Hb & _ & Ht).
  unfold fold_events. rewrite run_events_app, run_events_chunks.
  cbn [app run_events on_event fst snd].
  rewrite run_events_app, run_events_chunks.
  destruct again; store_fields;
    rewrite Hm, Ht, <- !app_assoc; split; reflexivity.
Qed.

(** C10 for [chunk "A"], [complete], [chunk "B"], [complete]: the second
    message of the assistant has content ["AB"]. *)
Lemma C10_witness :
  let w := Sample.server Sample.stream_A_complete_B_complete in
  let e' := snd (ChatStore.sendMessage w "hi" None
                   (Sample.signed_in ChatStore.initial)) in
  messages (store e')
  = [userMessage w "hi" 0; assistantMessage w "A" 2; assistantMessage w "AB" 4]
  /\ streamingMessage (store e') = "".
Proof.
  apply (C10_events_after_complete
           (Sample.server Sample.stream_A_complete_B_complete)
           (Sample.signed_in ChatStore.initial) "hi" None
           Sample.stream_A_complete_B_complete ["A"] ["B"] true).
  - apply sample_opens.
  - vm_compute. reflexivity.
Defined.

End Session.


(** * Theorems on the rest of the code *)

(** ** The loop of [streamChat] with any handlers *)

Section AnyHandlers.
Context {St : Type}.
Variable w : World.
Variable onChunk : string -> M (Env St) unit.
Variable onComplete : option (string -> M (Env St) unit).
Variable onError : option (option string -> M (Env St) unit).

Local Notation "'line_with'" := (Api.streamChat_line w onChunk onComplete onError).
Local Notation "'lines_with'" := (Api.streamChat_lines w onChunk onComplete onError).

(** A line that stands for no event is passed over, whatever the handlers. *)
Lemma line_without_event (line : string) (s : Env St * string) :
  event_of_line w line = None ->
  line_with line s = (Returned Api.NextLine, s).
Proof.
  unfold Api.streamChat_line, event_of_line.
  destruct (Js.startsWith "data: " line); [|reflexivity].
  destruct (Js.trim (Js.slice 6 line) =? "")%string; [reflexivity|].
  unfold try_catch, bind, await.
  destruct (JSON_parse w (Js.trim (Js.slice 6 line))) as [[parsed|]|thrown];
    [|reflexivity|reflexivity].
  unfold Api.streamChat_switch.
  destruct (Parsed.type parsed) as [type|]; [|reflexivity].
  destruct (type =? "assistant_chunk")%string.
  { destruct (Parsed.content parsed) as [content|]; [|reflexivity].
    destruct (Js.truthy content); [discriminate|reflexivity]. }
  destruct (type =? "assistant_complete")%string; [discriminate|].
  destruct (type =? "done")%string; [discriminate|].
  destruct (type =? "error")%string; [discriminate|reflexivity].
Qed.

Lemma lines_app (lines1 lines2 : list string) (s : Env St * string) :
  lines_with (lines1 ++ lines2) s
  = match lines_with lines1 s with
    | (Returned Api.NextLine, s') => lines_with lines2 s'
    | other => other
    end.
Proof.
  revert s; induction lines1 as [|line lines1 IH]; intros s; [reflexivity|].
  cbn [app Api.streamChat_lines]. unfold bind.
  destruct (line_with line s) as [[[|]|x] s']; [apply IH|reflexivity|reflexivity].
Qed.

End AnyHandlers.

Lemma split_not_nil (s : string) : Js.split Js.newline s <> [].
Proof.
  destruct s as [|c s]; [discriminate|]. cbn [Js.split].
  destruct (Ascii.eqb c Js.newline); [discriminate|].
  destruct (Js.split Js.newline s); discriminate.
Qed.

Lemma split_app_newline (a b : string) :
  Js.split Js.newline (a ++ String Js.newline b)
  = (Js.split Js.newline a ++ Js.split Js.newline b)%list.
Proof.
  induction a as [|c a IH].
  - reflexivity.
  - cbn [append Js.split]. destruct (Ascii.eqb c Js.newline).
    + rewrite IH. reflexivity.
    + rewrite IH.
      destruct (Js.split Js.newline a) as [|l ls] eqn:Hs;
        [now elim (split_not_nil a)|reflexivity].
Qed.

(** X1: whatever the handlers, a line that is not a [data: ] line, whose
    payload is blank or does not parse, or whose parsed value calls no
    handler, changes nothing of what [streamChat] does with the lines
    around it: the lines of a read with such a line among them are
    processed as without it. *)
Theorem X1_line_without_event_is_passed_over {St : Type} (w : World)
    (onChunk : string -> M (Env St) unit)
    (onComplete : option (string -> M (Env St) unit))
    (onError : option (option string -> M (Env St) unit))
    (lines1 lines2 : list string) (line : string) (s : Env St * string) :
  event_of_line w line = None ->
  Api.streamChat_lines w onChunk onComplete onError (lines1 ++ line :: lines2) s
  = Api.streamChat_lines w onChunk onComplete onError (lines1 ++ lines2) s.
Proof.
  intros Hnoise. rewrite !lines_app.
  destruct (Api.streamChat_lines w onChunk onComplete onError lines1 s)
    as [[[|]|x] s']; try reflexivity.
  cbn [Api.streamChat_lines]. unfold bind.
  rewrite (line_without_event w onChunk onComplete onError line s' Hnoise).
  reflexivity.
Qed.

(** X1 for a line cut in the middle of its JSON, between a chunk and a
    completion. *)
Lemma X1_witness :
  let w := Sample.server [] in
  let run := Api.streamChat_lines w ChatStore.onChunk
               (Some (ChatStore.onComplete w)) (Some ChatStore.onError) in
  let s := (Sample.signed_in ChatStore.initial, "") in
  event_of_line w Cases.truncated = None
  /\ run ([WireJson.line_chunk "A"] ++ Cases.truncated :: [WireJson.line_complete])%list s
     = run ([WireJson.line_chunk "A"] ++ [WireJson.line_complete])%list s.
Proof.
  split; [vm_compute; reflexivity|].
  apply (X1_line_without_event_is_passed_over (Sample.server [])
           ChatStore.onChunk (Some (ChatStore.onComplete (Sample.server [])))
           (Some ChatStore.onError)
           [WireJson.line_chunk "A"] [WireJson.line_complete] Cases.truncated
           (Sample.signed_in ChatStore.initial, "")).
  vm_compute. reflexivity.
Defined.

(** X2: whatever the handlers, it makes no difference to [streamChat]
    whether two groups of lines arrive in one read or in two reads cut right
    after the line feed between them. *)
Theorem X2_reads_cut_after_a_line_feed {St : Type} (w : World)
    (onChunk : string -> M (Env St) unit)
    (onComplete : option (string -> M (Env St) unit))
    (onError : option (option string -> M (Env St) unit))
    (a b : string) (rest : Stream) (s : Env St * string) :
  Api.streamChat_reads w onChunk onComplete onError
    (Returned (a ++ String Js.newline b) :: rest) s
  = Api.streamChat_reads w onChunk onComplete onError
      (Returned (a ++ String Js.newline "") :: Returned b :: rest) s.
Proof.
  cbn [Api.streamChat_reads]. unfold bind, await.
  rewrite !split_app_newline, !lines_app.
  destruct (Api.streamChat_lines w onChunk onComplete onError
              (Js.split Js.newline a) s) as [[[|]|x] s']; reflexivity.
Qed.


(** ** Sends over a body whose reads may reject *)

Section Bodies.
Variable w : World.

Import ChatState.

Local Notation "'reads_of'" :=
  (Api.streamChat_reads w ChatStore.onChunk
     (Some (ChatStore.onComplete w)) (Some ChatStore.onError)).

Lemma reads_app (texts : list string) (rest : Stream) (s : ChatStore.State * string) :
  reads_of (map Returned texts ++ rest)%list s
  = match run_events w (events w texts) s with
    | (Api.NextLine, s') => reads_of rest s'
    | (Api.ReturnFromFunction, s') => (Returned tt, s')
    end.
Proof.
  revert s; induction texts as [|text texts IH]; intros s; [reflexivity|].
  cbn [map app Api.streamChat_reads events]. unfold bind, await.
  rewrite streamChat_lines_events, run_events_app.
  destruct (run_events w (events_of_lines w (Js.split Js.newline text)) s)
    as [[|] s']; cbn [fst snd]; [apply IH|reflexivity].
Qed.

Lemma streamChat_body (conversationId : option Z) (message : string)
    (stream : Stream) (e e' : ChatStore.State) :
  Api.sendMessage w conversationId message e = (Returned (Some stream), e') ->
  (let (o, s') :=
     Api.streamChat w ChatStore.onChunk (Some (ChatStore.onComplete w))
       (Some ChatStore.onError) conversationId message e in
   match o with
   | Returned a => (Returned a, s')
   | Threw x => throw x (with_store (ChatStore.put_busy false false) s')
   end)
  = finish (reads_of stream (e', "")).
Proof.
  intros Hopen. unfold Api.streamChat, try_catch, bind. rewrite Hopen.
  unfold with_local, try_finally, Api.releaseLock, ret.
  unfold ChatStore.State in *.
  match goal with
  | |- context [Api.streamChat_reads ?a ?b ?c ?d ?s ?p] =>
      destruct (Api.streamChat_reads a b c d s p) as [[[]|x] [e'' fm]]
  end; unfold finish; cbn [fst snd]; [reflexivity|].
  destruct x; reflexivity.
Qed.

(** The send that opens its body ends as the loop over the reads ends. *)
Lemma sendMessage_body (e : ChatStore.State) (message : string)
    (cb : option (option Z -> M ChatStore.State unit)) (stream : Stream) :
  opens_body w e message cb stream ->
  ChatStore.sendMessage w message cb e
  = finish (reads_of stream (opened w e message, "")).
Proof.
  intros [Hw (u & v & Hu & Hut & Hparse) Hconv (t & Htok & Htt)
            (r & Hfetch & Hok & Hbody)].
  unfold ChatStore.sendMessage, ChatStore.get, ChatStore.set,
    ChatStore.userData, ChatStore.now.
  unfold try_catch, bind, gets, modify, await, ret.
  cbn [store localStorage_user with_store ticks].
  rewrite Hw, Hu, Hut, Hparse.
  unfold stream_request, token_of in Hfetch. rewrite Htok in Hfetch.
  unfold opened, stream_request, token_of. rewrite Htok.
  unfold conversation_of in *.
  destruct Hconv as [Hcur | (Hq & rc & j & Hcreate & Hcok & Hjson)].
  - rewrite Hcur in *. cbn [negb].
    erewrite streamChat_body; [reflexivity|].
    apply sendMessage_ok with (r := r); assumption.
  - destruct (Js.truthy_num (currentConversationId (store e))) eqn:Hcur.
    + cbn [negb].
      erewrite streamChat_body; [reflexivity|].
      apply sendMessage_ok with (r := r); assumption.
    + cbn [negb]. rewrite Hcreate, Hjson in *.
      rewrite (createConversation_ok w _ _ rc j); try assumption.
      destruct cb as [f|]; [cbn in Hq; rewrite Hq|];
        (erewrite streamChat_body;
         [reflexivity | apply sendMessage_ok with (r := r); assumption]).
Qed.

Lemma run_events_done (evs : list StreamEvent) (s : ChatStore.State * string) :
  In done evs -> fst (run_events w evs s) = Api.ReturnFromFunction.
Proof.
  revert s; induction evs as [|ev evs IH]; intros s Hin; [now elim Hin|].
  destruct ev; cbn [run_events on_event]; try reflexivity;
    (apply IH; destruct Hin as [H|H]; [discriminate H|exact H]).
Qed.

Lemma run_events_no_done (evs : list StreamEvent) (s : ChatStore.State * string) :
  ~ In done evs -> fst (run_events w evs s) = Api.NextLine.
Proof.
  revert s; induction evs as [|ev evs IH]; intros s Hin; [reflexivity|].
  destruct ev; cbn [run_events on_event];
    try (apply IH; intros H; apply Hin; right; exact H).
  elim Hin. left. reflexivity.
Qed.

Lemma reads_after_done (texts : list string) (rest : Stream)
    (s : ChatStore.State * string) :
  In done (events w texts) ->
  reads_of (map Returned texts ++ rest)%list s
  = (Returned tt, snd (run_events w (events w texts) s)).
Proof.
  intros Hdone. rewrite reads_app.
  pose proof (run_events_done _ s Hdone) as H.
  destruct (run_events w (events w texts) s) as [y s'].
  cbn [fst snd] in *. subst y. reflexivity.
Qed.

Lemma reads_rejected (texts : list string) (x : Js.Thrown) (rest : Stream)
    (s : ChatStore.State * string) :
  ~ In done (events w texts) ->
  reads_of (map Returned texts ++ Threw x :: rest)%list s
  = (Threw x, snd (run_events w (events w texts) s)).
Proof.
  intros Hdone. rewrite reads_app.
  pose proof (run_events_no_done _ s Hdone) as H.
  destruct (run_events w (events w texts) s) as [y s'].
  cbn [fst snd] in *. subst y. reflexivity.
Qed.

End Bodies.

Lemma cases_opens (s : ChatState.t) (message : string) (stream : Stream) :
  opens_body (Cases.server_of stream) (Sample.signed_in s) message None stream.
Proof.
  split.
  - reflexivity.
  - exists "{}", (Some WireJson.no_fields). repeat split; reflexivity.
  - destruct (Js.truthy_num
                (ChatState.currentConversationId (store (Sample.signed_in s)))) eqn:H;
      [left; reflexivity|right].
    split; [exact I|]. eexists; eexists. repeat split; reflexivity.
  - exists "token". split; reflexivity.
  - eexists. repeat split; reflexivity.
Qed.

(** X3: once a [done] event is met nothing more of the body is read: a
    send whose reads up to some point carry a [done] returns, with the store
    as the events of those reads leave it, whatever the later reads are, a
    read that rejects included. *)
Theorem X3_nothing_is_read_after_done (w : World) (e : ChatStore.State)
    (message : string) (cb : option (option Z -> M ChatStore.State unit))
    (texts : list string) (rest : Stream) :
  opens_body w e message cb (map Returned texts ++ rest)%list ->
  In done (events w texts) ->
  ChatStore.sendMessage w message cb e
  = (Returned tt, fold_events w (events w texts) (opened w e message)).
Proof.
  intros Hopen Hdone.
  rewrite (sendMessage_body w _ _ _ _ Hopen), (reads_after_done w _ _ _ Hdone).
  reflexivity.
Qed.

(** X3 for a body whose read after the one with [done] rejects. *)
Lemma X3_witness :
  let w := Cases.server_of Cases.stream_done_then_cut in
  let e := Sample.signed_in ChatStore.initial in
  let texts := [WireJson.lines [WireJson.line_chunk "A"; WireJson.line_complete;
                                WireJson.line_done]] in
  In done (events w texts)
  /\ ChatStore.sendMessage w "hi" None e
     = (Returned tt, fold_events w (events w texts) (opened w e "hi")).
Proof.
  split; [vm_compute; tauto|].
  apply (X3_nothing_is_read_after_done (Cases.server_of Cases.stream_done_then_cut)
           (Sample.signed_in ChatStore.initial) "hi" None
           [WireJson.lines [WireJson.line_chunk "A"; WireJson.line_complete;
                            WireJson.line_done]]
           [Threw (Js.Error "network error")]).
  - apply cases_opens.
  - vm_compute. tauto.
Defined.

(** X4: when a read of the body rejects before any [done], the send
    throws an error carrying the message of the rejection, and the store is
    the one the events read so far leave, with both busy flags cleared: the
    text received so far stays in the buffer and the message of the user in
    the transcript. *)
Theorem X4_rejected_read_fails_the_send (w : World) (e : ChatStore.State)
    (message : string) (cb : option (option Z -> M ChatStore.State unit))
    (texts : list string) (x : Js.Thrown) (rest : Stream) :
  opens_body w e message cb (map Returned texts ++ Threw x :: rest)%list ->
  ~ In done (events w texts) ->
  let run := ChatStore.sendMessage w message cb e in
  fst run = Threw (Js.Error (message_of x))
  /\ store (snd run)
     = ChatStore.put_busy false false
         (store (fold_events w (events w texts) (opened w e message))).
Proof.
  intros Hopen Hdone.
  rewrite (sendMessage_body w _ _ _ _ Hopen), (reads_rejected w _ _ _ _ Hdone).
  split; reflexivity.
Qed.

(** X4 for a network failure after the chunk ["A"]. *)
Lemma X4_witness :
  let w := Cases.server_of Cases.stream_A_then_cut in
  let e := Sample.signed_in ChatStore.initial in
  let texts := [WireJson.lines [WireJson.line_chunk "A"]] in
  let run := ChatStore.sendMessage w "hi" None e in
  ~ In done (events w texts)
  /\ fst run = Threw (Js.Error "network error")
  /\ store (snd run)
     = ChatStore.put_busy false false
         (store (fold_events w (events w texts) (opened w e "hi"))).
Proof.
  split; [vm_compute; intros [H|[]]; discriminate H|].
  apply (X4_rejected_read_fails_the_send (Cases.server_of Cases.stream_A_then_cut)
           (Sample.signed_in ChatStore.initial) "hi" None
           [WireJson.lines [WireJson.line_chunk "A"]]
           (Js.Error "network error") []).
  - apply cases_opens.
  - vm_compute. intros [H|[]]. discriminate H.
Defined.


(** ** Sends that fail before their stream is read *)

Ltac unfold_send :=
  unfold ChatStore.sendMessage, ChatStore.get, ChatStore.set,
    ChatStore.userData, ChatStore.now;
  unfold try_catch, bind, gets, modify, await, ret, throw;
  cbn [store localStorage_user localStorage_access_token with_store ticks].

(** X5: without a stored user (or without a window) [sendMessage] throws
    ["User not authenticated"]; it has set and cleared the busy flags and
    done nothing else: no request is issued, and transcript, buffer and
    conversation id are as they were. *)
Theorem X5_send_without_user (w : World) (e : ChatStore.State) (message : string)
    (cb : option (option Z -> M ChatStore.State unit)) :
  Js.truthy_opt (stored_user w e) = false ->
  ChatStore.sendMessage w message cb e
  = (Threw (Js.Error "User not authenticated"),
     with_store (ChatStore.put_busy false false)
       (with_store (ChatStore.put_busy true true) e)).
Proof.
  unfold stored_user. intros H. unfold_send.
  destruct (if window w then localStorage_user e else None) as [u|]; [|reflexivity].
  cbn [Js.truthy_opt] in H. rewrite H. reflexivity.
Qed.

(** X5 for a browser with nothing stored. *)
Lemma X5_witness :
  let w := Sample.server Sample.stream_A in
  let e := Cases.signed_out ChatStore.initial in
  ChatStore.sendMessage w "hi" None e
  = (Threw (Js.Error "User not authenticated"),
     with_store (ChatStore.put_busy false false)
       (with_store (ChatStore.put_busy true true) e)).
Proof.
  apply (X5_send_without_user (Sample.server Sample.stream_A)
           (Cases.signed_out ChatStore.initial) "hi" None).
  reflexivity.
Defined.

(** X6: when the session has a conversation, [sendMessage] never calls
    [onConversationCreated]: the send is the same with any callback as with
    none. *)
Theorem X6_callback_only_for_a_new_conversation (w : World) (e : ChatStore.State)
    (message : string) (cb : option (option Z -> M ChatStore.State unit)) :
  Js.truthy_num (ChatState.currentConversationId (store e)) = true ->
  ChatStore.sendMessage w message cb e = ChatStore.sendMessage w message None e.
Proof.
  intros H. unfold_send. rewrite H. reflexivity.
Qed.

(** X6 for a callback that would throw, in conversation 7. *)
Lemma X6_witness :
  let w := Sample.server Sample.stream_A_B_complete in
  let e := Sample.signed_in Cases.at_rest in
  ChatStore.sendMessage w "hi" (Some Cases.failing_parent) e
  = ChatStore.sendMessage w "hi" None e.
Proof.
  apply (X6_callback_only_for_a_new_conversation
           (Sample.server Sample.stream_A_B_complete)
           (Sample.signed_in Cases.at_rest) "hi" (Some Cases.failing_parent)).
  reflexivity.
Defined.

(** X7: when the server refuses the creation of the conversation, the
    send throws: ["Unauthorized"] for status 401, whatever the body; for
    another status an error with the detail of the body, or with ["Failed to
    create conversation"] without one, when the body is JSON, and what
    [response.json()] rejects with when it is not.  In each case the store
    is as before the send (no message of the user appended, no conversation
    id), the one request is the creation, and the stored token and the
    location change only for status 401, to none and to the login page. *)
Theorem X7_refused_creation_appends_nothing (w : World) (e : ChatStore.State)
    (message : string) (cb : option (option Z -> M ChatStore.State unit))
    (u : string) (v : option Parsed.t) (r : Response.t) :
  window w = true ->
  localStorage_user e = Some u -> Js.truthy u = true ->
  JSON_parse w u = Returned v ->
  Js.truthy_num (ChatState.currentConversationId (store e)) = false ->
  fetch w (create_request e message) = Returned r ->
  Response.ok r = false ->
  let run := ChatStore.sendMessage w message cb e in
  fst run
  = Threw (if Response.status r =? 401 then Js.Error "Unauthorized"
           else refused r "Failed to create conversation")
  /\ store (snd run) = ChatStore.put_busy false false (store e)
  /\ requests (snd run) = (requests e ++ [create_request e message])%list
  /\ localStorage_access_token (snd run)
     = (if Response.status r =? 401 then None else localStorage_access_token e)
  /\ location_href (snd run)
     = (if Response.status r =? 401 then Some "/login" else location_href e).
Proof.
  intros Hw Hu Hut Hparse Hcur Hfetch Hok. unfold_send.
  rewrite Hw, Hu, Hut, Hparse, Hcur. cbn [negb].
  unfold Api.createConversation, Api.apiCall, Api.getAuthToken, Api.do_fetch,
    Api.removeAuthToken, bind, gets, modify, await, ret, throw.
  rewrite Hw. cbn [localStorage_access_token with_store with_request].
  fold (create_request e message). rewrite Hfetch.
  destruct (Response.status r =? 401).
  - repeat split.
  - rewrite Hok. cbn [negb]. unfold refused.
    destruct (Response.json r) as [j|x]; repeat split.
Qed.

(** X7 for a first send answered with status 422 and a detail. *)
Lemma X7_witness :
  let w := Cases.refusing 422 (Some "Message too long") in
  let e := Sample.signed_in ChatStore.initial in
  let run := ChatStore.sendMessage w "hi" None e in
  fst run = Threw (Js.Error "Message too long")
  /\ store (snd run) = ChatStore.put_busy false false (store e)
  /\ requests (snd run) = (requests e ++ [create_request e "hi"])%list
  /\ localStorage_access_token (snd run) = localStorage_access_token e
  /\ location_href (snd run) = location_href e.
Proof.
  apply (X7_refused_creation_appends_nothing
           (Cases.refusing 422 (Some "Message too long"))
           (Sample.signed_in ChatStore.initial) "hi" None
           "{}" (Some WireJson.no_fields)
           (Cases.refusal 422 (Some "Message too long")));
    reflexivity.
Defined.

(** A first send through a gateway whose server is down: the send throws
    the syntax error of the body, not an error of [createConversation]. *)
Example first_send_through_a_gateway :
  let e := Sample.signed_in ChatStore.initial in
  let run := ChatStore.sendMessage Cases.gateway "hi" None e in
  fst run = Threw (Js.Error "SyntaxError")
  /\ store (snd run) = ChatStore.put_busy false false (store e)
  /\ requests (snd run) = [create_request e "hi"].
Proof. vm_compute. repeat split. Qed.

(** X8: when [onConversationCreated] throws, the send throws the same
    value with both flags cleared; the id of the conversation just created is
    already stored, so that the next send goes into it, and no message of
    the user is appended. *)
Theorem X8_throwing_callback_keeps_the_new_conversation (w : World)
    (e : ChatStore.State) (message : string)
    (f : option Z -> M ChatStore.State unit) (x : Js.Thrown)
    (u : string) (v : option Parsed.t) (r : Response.t) (j : Json.t) :
  window w = true ->
  localStorage_user e = Some u -> Js.truthy u = true ->
  JSON_parse w u = Returned v ->
  Js.truthy_num (ChatState.currentConversationId (store e)) = false ->
  fetch w (create_request e message) = Returned r ->
  Response.ok r = true ->
  Response.json r = Returned j ->
  (forall id e', f id e' = (Threw x, e')) ->
  let run := ChatStore.sendMessage w message (Some f) e in
  fst run = Threw x
  /\ store (snd run)
     = ChatStore.put_busy false false
         (ChatStore.put_currentConversationId (Json.conversation_id j) (store e))
  /\ requests (snd run) = (requests e ++ [create_request e message])%list.
Proof.
  intros Hw Hu Hut Hparse Hcur Hfetch Hok Hjson Hf. unfold_send.
  rewrite Hw, Hu, Hut, Hparse, Hcur. cbn [negb].
  rewrite (createConversation_ok w _ _ r j); try assumption.
  rewrite Hf. repeat split.
Qed.

(** X8 for a first send with a parent that throws. *)
Lemma X8_witness :
  let w := Sample.server Sample.stream_A in
  let e := Sample.signed_in ChatStore.initial in
  let run := ChatStore.sendMessage w "hi" (Some Cases.failing_parent) e in
  fst run = Threw (Js.Error "parent")
  /\ store (snd run)
     = ChatStore.put_busy false false
         (ChatStore.put_currentConversationId (Some 7) (store e))
  /\ requests (snd run) = (requests e ++ [create_request e "hi"])%list.
Proof.
  apply (X8_throwing_callback_keeps_the_new_conversation
           (Sample.server Sample.stream_A)
           (Sample.signed_in ChatStore.initial) "hi" Cases.failing_parent
           (Js.Error "parent") "{}" (Some WireJson.no_fields)
           Cases.created Cases.created_body);
    reflexivity.
Defined.

(** X9: in a conversation, with a stored user but no token, the send
    throws ["No auth token available"] without issuing a request; the
    message of the user has been appended all the same, the buffer is empty
    and both flags are cleared. *)
Theorem X9_send_without_token_keeps_the_user_message (w : World)
    (e : ChatStore.State) (message : string)
    (cb : option (option Z -> M ChatStore.State unit))
    (u : string) (v : option Parsed.t) :
  window w = true ->
  localStorage_user e = Some u -> Js.truthy u = true ->
  JSON_parse w u = Returned v ->
  Js.truthy_num (ChatState.currentConversationId (store e)) = true ->
  Js.truthy_opt (localStorage_access_token e) = false ->
  let run := ChatStore.sendMessage w message cb e in
  fst run = Threw (Js.Error "No auth token available")
  /\ ChatState.messages (store (snd run))
     = (ChatState.messages (store e) ++ [userMessage w message (ticks e)])%list
  /\ ChatState.streamingMessage (store (snd run)) = ""
  /\ ChatState.isLoading (store (snd run)) = false
  /\ ChatState.isStreaming (store (snd run)) = false
  /\ requests (snd run) = requests e.
Proof.
  intros Hw Hu Hut Hparse Hcur Htok. unfold_send.
  rewrite Hw, Hu, Hut, Hparse, Hcur. cbn [negb].
  unfold Api.streamChat, Api.sendMessage, Api.getAuthToken, ChatStore.onError,
    ChatStore.set, try_catch, bind, gets, modify, await, ret, throw.
  rewrite Hw. cbn [localStorage_access_token with_store with_tick].
  destruct (localStorage_access_token e) as [t|]; [|repeat split].
  cbn [Js.truthy_opt] in Htok. rewrite Htok. repeat split.
Qed.

(** X9 for conversation 7 in a browser without a token. *)
Lemma X9_witness :
  let w := Sample.server Sample.stream_A in
  let e := Cases.without_token Cases.at_rest in
  let run := ChatStore.sendMessage w "hi" None e in
  fst run = Threw (Js.Error "No auth token available")
  /\ ChatState.messages (store (snd run))
     = (ChatState.messages (store e) ++ [userMessage w "hi" (ticks e)])%list
  /\ ChatState.streamingMessage (store (snd run)) = ""
  /\ ChatState.isLoading (store (snd run)) = false
  /\ ChatState.isStreaming (store (snd run)) = false
  /\ requests (snd run) = requests e.
Proof.
  apply (X9_send_without_token_keeps_the_user_message
           (Sample.server Sample.stream_A) (Cases.without_token Cases.at_rest)
           "hi" None "{}" (Some WireJson.no_fields));
    reflexivity.
Defined.

(** The send whose stream request is refused. *)
Lemma sendMessage_refused (w : World) (e : ChatStore.State)
    (conversationId : option Z) (message token : string) (r : Response.t) :
  window w = true ->
  localStorage_access_token e = Some token ->
  Js.truthy token = true ->
  fetch w (POST_messages_stream token conversationId message) = Returned r ->
  Response.ok r = false ->
  Api.sendMessage w conversationId message e
  = (Threw (refused r "Failed to send message"),
     with_request (POST_messages_stream token conversationId message) e).
Proof.
  intros Hw Htoken Htruthy Hfetch Hok.
  unfold Api.sendMessage, Api.getAuthToken, Api.do_fetch,
    bind, gets, modify, await, ret, throw.
  rewrite Hw, Htoken, Htruthy, Hfetch, Hok. cbn [negb]. unfold refused.
  destruct (Response.json r) as [j|x]; reflexivity.
Qed.

Lemma streamChat_refused (w : World) (conversationId : option Z)
    (message : string) (x : Js.Thrown) (e e' : ChatStore.State) :
  Api.sendMessage w conversationId message e = (Threw x, e') ->
  (let (o, s') :=
     Api.streamChat w ChatStore.onChunk (Some (ChatStore.onComplete w))
       (Some ChatStore.onError) conversationId message e in
   match o with
   | Returned a => (Returned a, s')
   | Threw x => throw x (with_store (ChatStore.put_busy false false) s')
   end)
  = (Threw (Js.Error (message_of x)),
     with_store (ChatStore.put_busy false false)
       (with_store (ChatStore.put_busy false false) e')).
Proof.
  intros Hrefused. unfold Api.streamChat, try_catch, bind. rewrite Hrefused.
  destruct x; reflexivity.
Qed.

(** The send that gets a refusal of its stream request throws the text of
    the refusal, from the surroundings the loop would have started in, with
    both flags cleared. *)
Lemma sendMessage_reaches (w : World) (e : ChatStore.State) (message : string)
    (cb : option (option Z -> M ChatStore.State unit)) (r : Response.t) :
  reaches_reply w e message cb r ->
  Response.ok r = false ->
  ChatStore.sendMessage w message cb e
  = (Threw (Js.Error (message_of (refused r "Failed to send message"))),
     with_store (ChatStore.put_busy false false)
       (with_store (ChatStore.put_busy false false) (opened w e message))).
Proof.
  intros [Hw (u & v & Hu & Hut & Hparse) Hconv (t & Htok & Htt) Hfetch] Hok.
  unfold ChatStore.sendMessage, ChatStore.get, ChatStore.set,
    ChatStore.userData, ChatStore.now.
  unfold try_catch, bind, gets, modify, await, ret.
  cbn [store localStorage_user with_store ticks].
  rewrite Hw, Hu, Hut, Hparse.
  unfold stream_request, token_of in Hfetch. rewrite Htok in Hfetch.
  unfold opened, stream_request, token_of. rewrite Htok.
  unfold conversation_of in *.
  destruct Hconv as [Hcur | (Hq & rc & j & Hcreate & Hcok & Hjson)].
  - rewrite Hcur in *. cbn [negb].
    erewrite streamChat_refused; [reflexivity|].
    apply sendMessage_refused; assumption.
  - destruct (Js.truthy_num (ChatState.currentConversationId (store e))) eqn:Hcur.
    + cbn [negb].
      erewrite streamChat_refused; [reflexivity|].
      apply sendMessage_refused; assumption.
    + cbn [negb]. rewrite Hcreate, Hjson in *.
      rewrite (createConversation_ok w _ _ rc j); try assumption.
      destruct cb as [f|]; [cbn in Hq; rewrite Hq|];
        (erewrite streamChat_refused;
         [reflexivity | apply sendMessage_refused; assumption]).
Qed.

(** The stream request does not touch the stored token nor the location. *)
Lemma opened_surroundings (w : World) (e : ChatStore.State) (message : string) :
  localStorage_access_token (opened w e message) = localStorage_access_token e
  /\ location_href (opened w e message) = location_href e.
Proof.
  unfold opened.
  destruct (Js.truthy_num (ChatState.currentConversationId (store e)));
    split; reflexivity.
Qed.

(** X10: when the server refuses the stream request of a send, into the
    current conversation or into one just created, status 401 included, the
    send throws an error whose text is the detail of the body, or ["Failed
    to send message"] without one, when the body is JSON, and the text of
    what [response.json()] rejects with when it is not.  The message of the
    user stays appended, the buffer is empty, both flags are cleared, the
    session is in the conversation of the send, and the token and the
    location are untouched. *)
Theorem X10_refused_stream_keeps_the_user_message (w : World)
    (e : ChatStore.State) (message : string)
    (cb : option (option Z -> M ChatStore.State unit)) (r : Response.t) :
  reaches_reply w e message cb r ->
  Response.ok r = false ->
  let run := ChatStore.sendMessage w message cb e in
  fst run = Threw (Js.Error (message_of (refused r "Failed to send message")))
  /\ ChatState.messages (store (snd run))
     = (ChatState.messages (store e) ++ [userMessage w message (ticks e)])%list
  /\ ChatState.streamingMessage (store (snd run)) = ""
  /\ ChatState.isLoading (store (snd run)) = false
  /\ ChatState.isStreaming (store (snd run)) = false
  /\ ChatState.currentConversationId (store (snd run)) = conversation_of w e message
  /\ localStorage_access_token (snd run) = localStorage_access_token e
  /\ location_href (snd run) = location_href e.
Proof.
  intros Hreach Hok. rewrite (sendMessage_reaches w e message cb r Hreach Hok).
  cbn [fst snd].
  destruct (opened_store w e message) as (Hm & _ & _ & Hb & Hc & _).
  destruct (opened_surroundings w e message) as (Ht & Hh).
  cbn [store with_store localStorage_access_token location_href
       ChatStore.put_busy ChatState.messages ChatState.streamingMessage
       ChatState.isLoading ChatState.isStreaming ChatState.currentConversationId].
  repeat split; assumption.
Qed.

(** X10 for a first send whose conversation is created and whose stream
    request meets a gateway with a page that is not JSON. *)
Lemma X10_witness :
  let w := Cases.creating_only in
  let e := Sample.signed_in ChatStore.initial in
  let run := ChatStore.sendMessage w "hi" (Some Sample.parent) e in
  fst run = Threw (Js.Error "SyntaxError")
  /\ ChatState.messages (store (snd run))
     = (ChatState.messages (store e) ++ [userMessage w "hi" (ticks e)])%list
  /\ ChatState.streamingMessage (store (snd run)) = ""
  /\ ChatState.isLoading (store (snd run)) = false
  /\ ChatState.isStreaming (store (snd run)) = false
  /\ ChatState.currentConversationId (store (snd run)) = Some 7
  /\ localStorage_access_token (snd run) = localStorage_access_token e
  /\ location_href (snd run) = location_href e.
Proof.
  apply (X10_refused_stream_keeps_the_user_message Cases.creating_only
           (Sample.signed_in ChatStore.initial) "hi" (Some Sample.parent)
           Cases.bad_gateway).
  - split.
    + reflexivity.
    + exists "{}", (Some WireJson.no_fields). repeat split.
    + right. split.
      * intros id e. reflexivity.
      * exists Cases.created, Cases.created_body. repeat split.
    + exists "token". split; reflexivity.
    + reflexivity.
  - reflexivity.
Defined.

(** A send into conversation 7 answered with status 401 and no detail:
    the token stays and there is no redirection. *)
Example stream_request_unauthorized :
  let w := Cases.refusing 401 None in
  let e := Sample.signed_in Cases.at_rest in
  let run := ChatStore.sendMessage w "hi" None e in
  fst run = Threw (Js.Error "Failed to send message")
  /\ map Message.content (ChatState.messages (store (snd run))) = ["hi"]
  /\ is_idle (store (snd run)) = true
  /\ localStorage_access_token (snd run) = Some "token"
  /\ location_href (snd run) = location_href e.
Proof. vm_compute. repeat split. Qed.


(** ** What a send that reaches its stream leaves behind *)

Section Summaries.
Variable w : World.

Import ChatState.

Lemma run_events_said (evs : list StreamEvent) (e : ChatStore.State) (fm : string) :
  map said (messages (store (fst (snd (run_events w evs (e, fm))))))
  = (map said (messages (store e))
     ++ map (pair assistant) (completions evs fm))%list.
Proof.
  revert e fm; induction evs as [|ev evs IH]; intros e fm.
  - cbn. now rewrite app_nil_r.
  - destruct ev as [content| | |m]; cbn [run_events on_event fst snd completions].
    + rewrite IH. reflexivity.
    + rewrite IH. unfold completed.
      cbn [store with_store with_tick messages ChatStore.put_completed map].
      rewrite map_app, <- app_assoc. reflexivity.
    + cbn. now rewrite app_nil_r.
    + rewrite IH. reflexivity.
Qed.

Lemma run_events_idle (evs : list StreamEvent) (e : ChatStore.State) (fm : string) :
  isLoading (store e) = false -> isStreaming (store e) = false ->
  isLoading (store (fst (snd (run_events w evs (e, fm))))) = false
  /\ isStreaming (store (fst (snd (run_events w evs (e, fm))))) = false.
Proof.
  revert e fm; induction evs as [|ev evs IH]; intros e fm Hl Hs.
  - split; assumption.
  - destruct ev; cbn [run_events on_event fst snd];
      try (apply IH; assumption); try (apply IH; reflexivity).
    split; assumption.
Qed.

Lemma run_events_flags (evs : list StreamEvent) (e : ChatStore.State) (fm : string) :
  isLoading (store (fst (snd (run_events w evs (e, fm)))))
  = (if settles evs then false else isLoading (store e))
  /\ isStreaming (store (fst (snd (run_events w evs (e, fm)))))
     = (if settles evs then false else isStreaming (store e)).
Proof.
  revert e fm; induction evs as [|ev evs IH]; intros e fm.
  - split; reflexivity.
  - destruct ev as [content| | |m]; cbn [run_events on_event fst snd settles].
    + exact (IH (chunk_received content e) (fm ++ content)).
    + apply run_events_idle; reflexivity.
    + split; reflexivity.
    + apply run_events_idle; reflexivity.
Qed.

Lemma run_events_conversation (evs : list StreamEvent) (e : ChatStore.State)
    (fm : string) :
  currentConversationId (store (fst (snd (run_events w evs (e, fm)))))
  = currentConversationId (store e).
Proof.
  revert e fm; induction evs as [|ev evs IH]; intros e fm; [reflexivity|].
  destruct ev; cbn [run_events on_event fst snd]; try rewrite IH; reflexivity.
Qed.

End Summaries.

(** X11: a send that reaches its stream only appends to the transcript:
    after the messages there were come the message of the user and then one
    message of the assistant for each [complete] met before a [done], each
    with the concatenation of the chunks met before it as content. *)
Theorem X11_transcript_after_a_send (w : World) (e : ChatStore.State)
    (message : string) (cb : option (option Z -> M ChatStore.State unit))
    (texts : list string) :
  opens_stream w e message cb texts ->
  map said (ChatState.messages (store (snd (ChatStore.sendMessage w message cb e))))
  = (map said (ChatState.messages (store e))
     ++ (user, message)
        :: map (pair assistant) (completions (events w texts) ""))%list.
Proof.
  intros Hopen. rewrite (sendMessage_opens w e message cb texts Hopen).
  cbn [snd]. unfold fold_events. rewrite run_events_said.
  destruct (opened_store w e message) as (Hm & _). rewrite Hm.
  rewrite map_app, <- app_assoc. reflexivity.
Qed.

(** X11 for a stream with two completions. *)
Lemma X11_witness :
  let w := Sample.server Sample.stream_A_complete_B_complete in
  let e := Sample.signed_in ChatStore.initial in
  map said (ChatState.messages (store (snd (ChatStore.sendMessage w "hi" None e))))
  = [(user, "hi"); (assistant, "A"); (assistant, "AB")].
Proof.
  apply (X11_transcript_after_a_send
           (Sample.server Sample.stream_A_complete_B_complete)
           (Sample.signed_in ChatStore.initial) "hi" None
           Sample.stream_A_complete_B_complete).
  apply sample_opens.
Defined.

(** X12: a send that reaches its stream and returns leaves both busy
    flags cleared exactly when the stream carried a [complete] or an [error]
    before any [done]; otherwise both stay set. *)
Theorem X12_busy_flags_after_a_send (w : World) (e : ChatStore.State)
    (message : string) (cb : option (option Z -> M ChatStore.State unit))
    (texts : list string) :
  opens_stream w e message cb texts ->
  let e' := snd (ChatStore.sendMessage w message cb e) in
  ChatState.isLoading (store e') = negb (settles (events w texts))
  /\ ChatState.isStreaming (store e') = negb (settles (events w texts)).
Proof.
  intros Hopen. rewrite (sendMessage_opens w e message cb texts Hopen).
  cbn [snd]. unfold fold_events.
  destruct (run_events_flags w (events w texts) (opened w e message) "") as [Hl Hs].
  destruct (opened_store w e message) as (_ & Hl0 & Hs0 & _).
  rewrite Hl, Hs, Hl0, Hs0. destruct (settles (events w texts)); split; reflexivity.
Qed.

(** X12 for a stream that closes after its chunks: the flags stay set. *)
Lemma X12_witness :
  let w := Sample.server Sample.stream_Hel_lo in
  let e' := snd (ChatStore.sendMessage w "hi" None
                   (Sample.signed_in ChatStore.initial)) in
  ChatState.isLoading (store e') = true /\ ChatState.isStreaming (store e') = true.
Proof.
  apply (X12_busy_flags_after_a_send (Sample.server Sample.stream_Hel_lo)
           (Sample.signed_in ChatStore.initial) "hi" None Sample.stream_Hel_lo).
  apply sample_opens.
Defined.

(** X13: after a send that reaches its stream the conversation of the
    session is the one that was streamed into, the one there was or the one
    the server created; no event of the stream changes it. *)
Theorem X13_conversation_after_a_send (w : World) (e : ChatStore.State)
    (message : string) (cb : option (option Z -> M ChatStore.State unit))
    (texts : list string) :
  opens_stream w e message cb texts ->
  ChatState.currentConversationId
    (store (snd (ChatStore.sendMessage w message cb e)))
  = conversation_of w e message.
Proof.
  intros Hopen. rewrite (sendMessage_opens w e message cb texts Hopen).
  cbn [snd]. unfold fold_events. rewrite run_events_conversation.
  now destruct (opened_store w e message) as (_ & _ & _ & _ & Hc & _).
Qed.

(** X13 for a first send: the session is in the conversation 7 the server
    created. *)
Lemma X13_witness :
  let w := Sample.server Sample.stream_A_boom in
  ChatState.currentConversationId
    (store (snd (ChatStore.sendMessage w "hi" None
                   (Sample.signed_in ChatStore.initial))))
  = Some 7.
Proof.
  apply (X13_conversation_after_a_send (Sample.server Sample.stream_A_boom)
           (Sample.signed_in ChatStore.initial) "hi" None Sample.stream_A_boom).
  apply sample_opens.
Defined.

(** X14: a submit of text that is not blank, in an idle session, never
    throws; it sends the trimmed text, and the input of the component ends
    empty when the send returns and holds the trimmed text again when the
    send throws. *)
Theorem X14_submit_restores_the_input_on_failure (w : World)
    (onConversationCreated : option Z -> M ChatStore.State unit)
    (e : ChatStore.State) (c : ChatInterface.Component) :
  Js.trim (ChatInterface.input c) <> "" ->
  is_idle (store e) = true ->
  let sent := ChatStore.sendMessage w (Js.trim (ChatInterface.input c))
                (Some (fun id => onConversationCreated id)) e in
  let run := ChatInterface.handleSubmit w onConversationCreated (e, c) in
  fst run = Returned tt
  /\ fst (snd run) = snd sent
  /\ ChatInterface.input (snd (snd run))
     = match fst sent with
       | Returned _ => ""
       | Threw _ => Js.trim (ChatInterface.input c)
       end.
Proof.
  intros Htext Hidle. unfold is_idle in Hidle.
  apply andb_true_iff in Hidle as [Hl Hs].
  apply negb_true_iff in Hl. apply negb_true_iff in Hs.
  unfold ChatInterface.handleSubmit, ChatInterface.setInput,
    ChatInterface.setShouldAutoScroll, set_local, lift,
    try_catch, bind, gets, modify, ret.
  cbn [fst snd]. rewrite Hl, Hs.
  destruct (Js.trim (ChatInterface.input c)) as [|a s] eqn:Htrim;
    [now elim Htext|].
  cbn [Js.truthy negb orb]. cbv zeta. cbn [fst snd].
  match goal with
  | |- context [ChatStore.sendMessage ?a ?b ?c ?d] =>
      destruct (ChatStore.sendMessage a b c d) as [[[]|x] e']
  end; repeat split.
Qed.

(** X14 for text between a no-break space and a space, in a send the
    server refuses: the input holds the trimmed text again. *)
Lemma X14_witness :
  let w := Cases.refusing 500 None in
  let e := Sample.signed_in Cases.at_rest in
  let run := ChatInterface.handleSubmit w Sample.parent
               (e, Sample.typed (Cases.no_break_space ++ "hi ")) in
  fst run = Returned tt
  /\ fst (snd run)
     = snd (ChatStore.sendMessage w "hi" (Some (fun id => Sample.parent id)) e)
  /\ ChatInterface.input (snd (snd run)) = "hi".
Proof.
  apply (X14_submit_restores_the_input_on_failure (Cases.refusing 500 None)
           Sample.parent (Sample.signed_in Cases.at_rest)
           (Sample.typed (Cases.no_break_space ++ "hi "))).
  - vm_compute. discriminate.
  - reflexivity.
Defined.

(** A submit of a no-break space alone is dropped: no request is issued. *)
Example submit_of_a_no_break_space :
  let e := Sample.signed_in Cases.at_rest in
  ChatInterface.handleSubmit (Cases.refusing 500 None) Sample.parent
    (e, Sample.typed Cases.no_break_space)
  = (Returned tt, (e, Sample.typed Cases.no_break_space)).
Proof. reflexivity. Qed.


(** ** Loading a conversation that is there *)

Section Loaded.
Variable w : World.

Import ChatState.

Lemma map_messages_loaded (msgs : list ApiMessage.t) (index : Z)
    (e : ChatStore.State) :
  ChatStore.map_messages w msgs index e
  = (Returned (loaded w (ticks e) index msgs), with_ticks (length msgs) e).
Proof.
  revert index e; induction msgs as [|msg msgs IH]; intros index e; [reflexivity|].
  cbn [ChatStore.map_messages loaded length with_ticks].
  unfold ChatStore.now, bind, gets, modify, ret.
  rewrite IH. reflexivity.
Qed.

Lemma with_ticks_store {St : Type} (n : nat) (e : Env St) :
  store (with_ticks n e) = store e.
Proof.
  revert e; induction n as [|n IH]; intros e; [reflexivity|].
  cbn. now rewrite IH.
Qed.

Lemma loaded_fields (n : nat) (index : Z) (msgs : list ApiMessage.t) :
  map Message.role (loaded w n index msgs) = map ApiMessage.role msgs
  /\ map Message.content (loaded w n index msgs) = map ApiMessage.content msgs
  /\ map Message.created_at (loaded w n index msgs)
     = map (fun m => from_server (ApiMessage.timestamp m)) msgs.
Proof.
  revert n index; induction msgs as [|msg msgs IH]; intros n index.
  - repeat split.
  - destruct (IH (S n) (index + 1)) as (Hr & Hc & Ht).
    cbn [loaded map]. rewrite Hr, Hc, Ht. repeat split.
Qed.

Lemma loadConversation_loaded (e : ChatStore.State) (conversationId : Z)
    (msgs : list ApiMessage.t) :
  load_succeeds w e conversationId msgs ->
  let run := ChatStore.loadConversation w conversationId e in
  fst run = Returned tt
  /\ store (snd run)
     = ChatStore.put_loaded (loaded w (ticks e) 0 msgs) conversationId (store e).
Proof.
  intros (Huser & r & j & Hfetch & Hok & Hjson & Hmsgs).
  unfold stored_user in Huser. unfold conversation_request in Hfetch.
  unfold ChatStore.loadConversation, ChatStore.set, ChatStore.userData,
    Api.getConversation, Api.apiCall, Api.getAuthToken, Api.do_fetch,
    Api.removeAuthToken.
  unfold try_catch, bind, gets, modify, await, ret, throw.
  cbn [localStorage_user localStorage_access_token with_store with_request store].
  rewrite Huser. cbn [negb].
  change (localStorage_access_token (with_store (ChatStore.put_isLoading true) e))
    with (localStorage_access_token e).
  rewrite Hfetch, (ok_not_401 r Hok), Hok. cbn [negb]. rewrite Hjson, Hmsgs.
  rewrite map_messages_loaded. cbn [fst snd]. split; [reflexivity|].
  cbn [store with_store ticks with_request]. rewrite with_ticks_store. reflexivity.
Qed.

Lemma loaded_ids_above (n : nat) (index : Z) (msgs : list ApiMessage.t) :
  (forall k, Date_now w k <= Date_now w (S k)) ->
  Forall (fun m => Date_now w n + index <= Message.id m) (loaded w n index msgs).
Proof.
  intros Hmono. revert n index; induction msgs as [|msg msgs IH]; intros n index.
  - constructor.
  - cbn [loaded]. constructor; [cbn; lia|].
    eapply Forall_impl; [|apply (IH (S n) (index + 1))].
    intros m Hm. cbn beta in Hm. specialize (Hmono n). lia.
Qed.

Lemma loaded_ids_sorted (n : nat) (index : Z) (msgs : list ApiMessage.t) :
  (forall k, Date_now w k <= Date_now w (S k)) ->
  StronglySorted Z.lt (map Message.id (loaded w n index msgs)).
Proof.
  intros Hmono. revert n index; induction msgs as [|msg msgs IH]; intros n index.
  - constructor.
  - cbn [loaded map]. constructor; [apply IH|].
    apply Forall_map.
    eapply Forall_impl; [|apply (loaded_ids_above (S n) (index + 1) msgs Hmono)].
    intros m Hm. cbn beta in Hm. cbn [Message.id]. specialize (Hmono n). lia.
Qed.

End Loaded.

Lemma cases_load_succeeds (s : ChatState.t) (stream : Stream) :
  load_succeeds (Cases.server_of stream) (Sample.signed_in s) 5 Cases.history.
Proof.
  split; [reflexivity|]. eexists; eexists. repeat split; reflexivity.
Qed.

(** X15: a load that succeeds returns and replaces the transcript by the
    fetched messages, in their order and with their roles, contents and
    timestamps; the conversation id is the one asked for and [isLoading] is
    cleared. *)
Theorem X15_load_replaces_the_transcript (w : World) (e : ChatStore.State)
    (conversationId : Z) (msgs : list ApiMessage.t) :
  load_succeeds w e conversationId msgs ->
  let run := ChatStore.loadConversation w conversationId e in
  fst run = Returned tt
  /\ map Message.role (ChatState.messages (store (snd run)))
     = map ApiMessage.role msgs
  /\ map Message.content (ChatState.messages (store (snd run)))
     = map ApiMessage.content msgs
  /\ map Message.created_at (ChatState.messages (store (snd run)))
     = map (fun m => from_server (ApiMessage.timestamp m)) msgs
  /\ ChatState.currentConversationId (store (snd run)) = Some conversationId
  /\ ChatState.isLoading (store (snd run)) = false.
Proof.
  intros Hload.
  destruct (loadConversation_loaded w e conversationId msgs Hload) as [Hr Hs].
  destruct (loaded_fields w (ticks e) 0 msgs) as (Hro & Hc & Ht).
  cbn zeta. rewrite Hs.
  cbn [ChatState.messages ChatState.currentConversationId ChatState.isLoading
       ChatStore.put_loaded].
  repeat split; assumption.
Qed.

(** X15 for the stored conversation 5, loaded over a transcript in
    flight. *)
Lemma X15_witness :
  let w := Cases.server_of [] in
  let run := ChatStore.loadConversation w 5 (Sample.signed_in Sample.in_flight) in
  fst run = Returned tt
  /\ map Message.role (ChatState.messages (store (snd run))) = [user; assistant]
  /\ map Message.content (ChatState.messages (store (snd run))) = ["ping"; "pong"]
  /\ map Message.created_at (ChatState.messages (store (snd run)))
     = [from_server "t1"; from_server "t2"]
  /\ ChatState.currentConversationId (store (snd run)) = Some 5
  /\ ChatState.isLoading (store (snd run)) = false.
Proof.
  apply (X15_load_replaces_the_transcript (Cases.server_of [])
           (Sample.signed_in Sample.in_flight) 5 Cases.history).
  apply cases_load_succeeds.
Defined.

(** X16: when the clock never goes back, the ids a load gives to the
    messages ([Date.now() + index]) increase strictly along the transcript,
    so they are pairwise distinct. *)
Theorem X16_loaded_ids_increase (w : World) (e : ChatStore.State)
    (conversationId : Z) (msgs : list ApiMessage.t) :
  load_succeeds w e conversationId msgs ->
  (forall k, Date_now w k <= Date_now w (S k)) ->
  StronglySorted Z.lt
    (map Message.id
       (ChatState.messages
          (store (snd (ChatStore.loadConversation w conversationId e))))).
Proof.
  intros Hload Hmono.
  destruct (loadConversation_loaded w e conversationId msgs Hload) as [_ Hs].
  cbn zeta in Hs. rewrite Hs. cbn [ChatState.messages ChatStore.put_loaded].
  apply loaded_ids_sorted. exact Hmono.
Qed.

(** X16 for the stored conversation 5. *)
Lemma X16_witness :
  StronglySorted Z.lt
    (map Message.id
       (ChatState.messages
          (store (snd (ChatStore.loadConversation (Cases.server_of []) 5
                         (Sample.signed_in ChatStore.initial)))))).
Proof.
  apply (X16_loaded_ids_increase (Cases.server_of [])
           (Sample.signed_in ChatStore.initial) 5 Cases.history).
  - apply cases_load_succeeds.
  - intros k. unfold Cases.server_of. cbn [Date_now]. lia.
Defined.

(** X17: without a stored user (or without a window) [loadConversation]
    issues no request: it returns, having set and cleared [isLoading] and
    nothing else. *)
Theorem X17_load_without_user (w : World) (e : ChatStore.State)
    (conversationId : Z) :
  Js.truthy_opt (stored_user w e) = false ->
  ChatStore.loadConversation w conversationId e
  = (Returned tt,
     with_store (ChatStore.put_isLoading false)
       (with_store (ChatStore.put_isLoading true) e)).
Proof.
  unfold stored_user. intros H.
  unfold ChatStore.loadConversation, ChatStore.set, ChatStore.userData.
  unfold try_catch, bind, gets, modify, await, ret, throw.
  cbn [localStorage_user with_store]. rewrite H. reflexivity.
Qed.

(** X17 for a browser with nothing stored. *)
Lemma X17_witness :
  let e := Cases.signed_out Sample.in_flight in
  ChatStore.loadConversation (Cases.server_of []) 5 e
  = (Returned tt,
     with_store (ChatStore.put_isLoading false)
       (with_store (ChatStore.put_isLoading true) e)).
Proof.
  apply (X17_load_without_user (Cases.server_of [])
           (Cases.signed_out Sample.in_flight) 5).
  reflexivity.
Defined.

(** X18: whatever the endpoint, a reply with status 401 to [apiCall]
    removes the stored token, sends the browser to the login page and throws
    ["Unauthorized"]; the store is not touched. *)
Theorem X18_unauthorized_reply {St : Type} (w : World)
    (endpoint : option string -> Request) (e : Env St) (r : Response.t) :
  window w = true ->
  fetch w (endpoint (Api.bearer (localStorage_access_token e))) = Returned r ->
  Response.status r = 401 ->
  let run := Api.apiCall w endpoint e in
  fst run = Threw (Js.Error "Unauthorized")
  /\ localStorage_access_token (snd run) = None
  /\ location_href (snd run) = Some "/login"
  /\ store (snd run) = store e.
Proof.
  intros Hw Hfetch Hstatus.
  unfold Api.apiCall, Api.getAuthToken, Api.do_fetch, Api.removeAuthToken,
    bind, gets, modify, await, ret, throw.
  rewrite Hw, Hfetch, Hstatus. repeat split.
Qed.

(** X18 for the fetch of a conversation with a token the server no longer
    accepts. *)
Lemma X18_witness :
  let e := Sample.signed_in Sample.in_flight in
  let run := Api.apiCall (Cases.refusing 401 None)
               (fun auth => GET_conversation auth 5) e in
  fst run = Threw (Js.Error "Unauthorized")
  /\ localStorage_access_token (snd run) = None
  /\ location_href (snd run) = Some "/login"
  /\ store (snd run) = store e.
Proof.
  apply (X18_unauthorized_reply (Cases.refusing 401 None)
           (fun auth => GET_conversation auth 5)
           (Sample.signed_in Sample.in_flight) (Cases.refusal 401 None));
    reflexivity.
Defined.


(** ** The token and the functions outside of the chat session *)

(** X19: with a window, a token stored by [setAuthToken] is the one
    [getAuthToken] reads back, and after [removeAuthToken] there is none;
    without a window [setAuthToken] stores nothing and [getAuthToken] reads
    none. *)
Theorem X19_token_round_trip {St : Type} (b : Backend) (token : string)
    (e : Env St) :
  let e1 := snd (Rest.setAuthToken b token e) in
  fst (Api.getAuthToken (world b) e1)
  = Returned (if window (world b) then Some token else None)
  /\ fst (Api.getAuthToken (world b) (snd (Api.removeAuthToken (world b) e1)))
     = Returned None.
Proof.
  unfold Rest.setAuthToken, Api.getAuthToken, Api.removeAuthToken, gets, modify, ret.
  destruct (window (world b)); split; reflexivity.
Qed.

(** X20: [logoutUser] gives up the stored token exactly when the server
    answers the logout with a success or with status 401; on any other reply
    it throws ["Failed to logout"] and the token stays.  On a success the
    token is removed also when the body then fails to parse. *)
Theorem X20_logout_and_the_token {St : Type} (b : Backend) (e : Env St)
    (r : Reply.t) :
  reply b (POST_logout (Api.bearer (stored_token b e))) = Returned r ->
  let run := Rest.logoutUser b e in
  fst run
  = (if Reply.status r =? 401 then Threw (Js.Error "Unauthorized")
     else if Reply.ok r then Reply.json r
     else Threw (Js.Error "Failed to logout"))
  /\ stored_token b (snd run)
     = (if (Reply.status r =? 401) || Reply.ok r then None else stored_token b e).
Proof.
  unfold stored_token. intros Hreply.
  unfold Rest.logoutUser, Rest.apiCall, Api.getAuthToken, Api.removeAuthToken,
    bind, gets, modify, await, ret, throw.
  rewrite Hreply.
  destruct (Reply.status r =? 401); cbn [orb].
  - destruct (window (world b)); split; reflexivity.
  - destruct (Reply.ok r); cbn [negb]; [|split; reflexivity].
    destruct (window (world b)); cbn;
      destruct (Reply.json r); split; reflexivity.
Qed.

(** X20 for a logout the server answers with status 500: the token
    stays. *)
Lemma X20_witness :
  let b := Cases.answering 500 (Returned Cases.no_body) in
  let e := Cases.browser Cases.listing in
  let run := Rest.logoutUser b e in
  fst run = Threw (Js.Error "Failed to logout")
  /\ stored_token b (snd run) = Some "token".
Proof.
  apply (X20_logout_and_the_token (Cases.answering 500 (Returned Cases.no_body))
           (Cases.browser Cases.listing)
           (Cases.answer 500 (Returned Cases.no_body))).
  reflexivity.
Defined.

(** X21: a login the server refuses, status 401 included, throws an
    error with the detail of the body, or with ["Login failed"] without one,
    when the body is JSON, and what [response.json()] rejects with when it
    is not.  In each case it leaves the surroundings as they were:
    [loginUser] neither stores nor removes a token and does not redirect. *)
Theorem X21_refused_login {St : Type} (b : Backend) (username password : string)
    (e : Env St) (r : Reply.t) :
  reply b (POST_login username password) = Returned r ->
  Reply.ok r = false ->
  Rest.loginUser b username password e
  = (Threw (match Reply.json r with
            | Returned j => Js.Error (Js.or_else (Body.detail j) "Login failed")
            | Threw x => x
            end), e).
Proof.
  intros Hreply Hok.
  unfold Rest.loginUser, bind, await, throw.
  rewrite Hreply, Hok. cbn [negb].
  destruct (Reply.json r) as [j|x]; reflexivity.
Qed.

(** X21 for a login answered with status 401 and no detail. *)
Lemma X21_witness :
  let e := Cases.browser Cases.listing in
  Rest.loginUser (Cases.answering 401 (Returned Cases.no_body)) "ann" "secret" e
  = (Threw (Js.Error "Login failed"), e).
Proof.
  apply (X21_refused_login (Cases.answering 401 (Returned Cases.no_body))
           "ann" "secret" (Cases.browser Cases.listing)
           (Cases.answer 401 (Returned Cases.no_body)));
    reflexivity.
Defined.

(** A login through a gateway whose server is down: the syntax error of
    the body is what is thrown. *)
Example login_through_a_gateway :
  let e := Cases.browser Cases.listing in
  Rest.loginUser (Cases.answering 502 (Threw (Js.Error "SyntaxError")))
    "ann" "secret" e
  = (Threw (Js.Error "SyntaxError"), e).
Proof. reflexivity. Qed.


(** ** The conversation store *)

Lemma find_filter {A : Type} (p q : A -> bool) (l : list A) :
  (forall x, p x = true -> q x = true) ->
  find p (filter q l) = find p l.
Proof.
  intros Hpq. induction l as [|x l IH]; [reflexivity|].
  cbn [filter find]. destruct (q x) eqn:Hq.
  - cbn [find]. now rewrite IH.
  - destruct (p x) eqn:Hp; [|exact IH].
    apply Hpq in Hp. congruence.
Qed.

(** X22: when the server accepts the deletion, [deleteConversation] of
    the store goes by the body of the reply.  With a body that is JSON it
    returns; the list keeps exactly the entries with another id; the active
    id is reset to none when it was the deleted one and is kept otherwise,
    and in that case the active conversation found is the same as before.
    With a body that is not JSON (an empty one, as with status 204) it
    throws what [response.json()] rejects with and the store is as it was:
    the entry stays in the list. *)
Theorem X22_delete_removes_the_conversation (b : Backend)
    (e : ConversationStore.State) (id : Z) (r : Reply.t) :
  reply b (delete_request b e id) = Returned r ->
  Reply.ok r = true ->
  let run := ConversationStore.deleteConversation b id e in
  let active := ConversationState.activeConversationId (store e) in
  match Reply.json r with
  | Returned _ =>
      fst run = Returned tt
      /\ (forall c, In c (ConversationState.conversations (store (snd run)))
                    <-> In c (ConversationState.conversations (store e))
                        /\ Conversation.conversation_id c <> id)
      /\ ConversationState.activeConversationId (store (snd run))
         = (if ConversationStore.is_id active id then None else active)
      /\ fst (ConversationStore.getActiveConversation (snd run))
         = (if ConversationStore.is_id active id then Returned None
            else fst (ConversationStore.getActiveConversation e))
  | Threw x =>
      fst run = Threw x /\ store (snd run) = store e
  end.
Proof.
  unfold delete_request, stored_token. intros Hreply Hok.
  assert (H401 : (Reply.status r =? 401) = false).
  { unfold Reply.ok in Hok. apply andb_true_iff in Hok as [_ H].
    apply Z.leb_le in H. apply Z.eqb_neq. lia. }
  unfold ConversationStore.deleteConversation, ConversationStore.set,
    Rest.deleteConversation, Rest.apiCall, Api.getAuthToken,
    try_catch, bind, gets, modify, await, ret, throw.
  rewrite Hreply, H401, Hok. cbn [negb].
  destruct (Reply.json r) as [j|x]; cbn [fst snd]; [|split; reflexivity].
  unfold ConversationStore.getActiveConversation, ConversationStore.get,
    bind, gets, ret.
  cbn [store with_store ConversationState.conversations
       ConversationState.activeConversationId fst].
  split; [reflexivity|]. split; [|split; [reflexivity|]].
  - intros c. rewrite filter_In, negb_true_iff, Z.eqb_neq. reflexivity.
  - destruct (ConversationStore.is_id
                (ConversationState.activeConversationId (store e)) id) eqn:Hact.
    + f_equal. cbn [ConversationStore.is_id].
      induction (filter _ _) as [|y l IH]; [reflexivity|exact IH].
    + f_equal. apply find_filter. intros y Hy.
      apply negb_true_iff, Z.eqb_neq. intros Heq. rewrite Heq in Hy.
      congruence.
Qed.

(** X22 for the deletion of the active conversation 2 out of three. *)
Lemma X22_witness :
  let b := Cases.answering 200 (Returned Cases.no_body) in
  let e := Cases.browser Cases.listing in
  let run := ConversationStore.deleteConversation b 2 e in
  fst run = Returned tt
  /\ (forall c, In c (ConversationState.conversations (store (snd run)))
                <-> In c (ConversationState.conversations (store e))
                    /\ Conversation.conversation_id c <> 2)
  /\ ConversationState.activeConversationId (store (snd run)) = None
  /\ fst (ConversationStore.getActiveConversation (snd run)) = Returned None.
Proof.
  apply (X22_delete_removes_the_conversation
           (Cases.answering 200 (Returned Cases.no_body))
           (Cases.browser Cases.listing) 2
           (Cases.answer 200 (Returned Cases.no_body)));
    reflexivity.
Defined.

(** A deletion answered with status 204 and an empty body: the store
    throws and the three entries and the active id stay. *)
Example delete_without_content :
  let b := Cases.answering 204 (Threw (Js.Error "SyntaxError")) in
  let e := Cases.browser Cases.listing in
  let run := ConversationStore.deleteConversation b 2 e in
  fst run = Threw (Js.Error "SyntaxError")
  /\ map Conversation.conversation_id
       (ConversationState.conversations (store (snd run))) = [3; 2; 1]
  /\ ConversationState.activeConversationId (store (snd run)) = Some 2.
Proof. vm_compute. repeat split. Qed.

(** X23: when the server refuses the deletion, [deleteConversation] of
    the store throws, ["Unauthorized"] for status 401 and ["Failed to delete
    conversation"] otherwise, and the store is as it was: nothing is removed
    from the list. *)
Theorem X23_refused_delete_changes_nothing (b : Backend)
    (e : ConversationStore.State) (id : Z) (r : Reply.t) :
  reply b (delete_request b e id) = Returned r ->
  Reply.ok r = false ->
  let run := ConversationStore.deleteConversation b id e in
  fst run = Threw (Js.Error (if Reply.status r =? 401 then "Unauthorized"
                             else "Failed to delete conversation"))
  /\ store (snd run) = store e.
Proof.
  unfold delete_request, stored_token. intros Hreply Hok.
  unfold ConversationStore.deleteConversation, ConversationStore.set,
    Rest.deleteConversation, Rest.apiCall, Api.getAuthToken, Api.removeAuthToken,
    try_catch, bind, gets, modify, await, ret, throw.
  rewrite Hreply.
  destruct (Reply.status r =? 401).
  - destruct (window (world b)); split; reflexivity.
  - rewrite Hok. split; reflexivity.
Qed.

(** X23 for a deletion answered with status 404. *)
Lemma X23_witness :
  let b := Cases.answering 404 (Returned Cases.no_body) in
  let e := Cases.browser Cases.listing in
  let run := ConversationStore.deleteConversation b 2 e in
  fst run = Threw (Js.Error "Failed to delete conversation")
  /\ store (snd run) = store e.
Proof.
  apply (X23_refused_delete_changes_nothing
           (Cases.answering 404 (Returned Cases.no_body))
           (Cases.browser Cases.listing) 2
           (Cases.answer 404 (Returned Cases.no_body)));
    reflexivity.
Defined.

(** X24: a conversation that is added and then made active is the one
    [getActiveConversation] returns, also when an older entry of the list
    has the same id: the new entry is put first and the first match is
    taken. *)
Theorem X24_added_conversation_is_found (c : Conversation.t)
    (e : ConversationStore.State) :
  let e1 := snd (ConversationStore.addConversation c e) in
  let e2 := snd (ConversationStore.setActiveConversation
                   (Some (Conversation.conversation_id c)) e1) in
  fst (ConversationStore.getActiveConversation e2) = Returned (Some c).
Proof.
  cbn. now rewrite Z.eqb_refl.
Qed.

(** X25: an update that carries no [conversation_id] keeps the ids of the
    list, entry by entry, and the active id; every entry of the new list
    whose id is not the updated one is an entry of the old list. *)
Theorem X25_update_keeps_the_ids (id : Z) (updates : Partial.t)
    (e : ConversationStore.State) :
  Partial.conversation_id updates = None ->
  let e' := snd (ConversationStore.updateConversation id updates e) in
  map Conversation.conversation_id (ConversationState.conversations (store e'))
  = map Conversation.conversation_id (ConversationState.conversations (store e))
  /\ (forall c, In c (ConversationState.conversations (store e')) ->
                Conversation.conversation_id c <> id ->
                In c (ConversationState.conversations (store e)))
  /\ ConversationState.activeConversationId (store e')
     = ConversationState.activeConversationId (store e).
Proof.
  intros Hid. cbn. repeat split.
  - rewrite map_map. apply map_ext. intros c.
    destruct (Conversation.conversation_id c =? id); [|reflexivity].
    unfold ConversationStore.spread. cbn. now rewrite Hid.
  - intros c Hin Hne. apply in_map_iff in Hin as (c0 & Hc & Hin0).
    destruct (Conversation.conversation_id c0 =? id) eqn:Heq.
    + subst c. unfold ConversationStore.spread in Hne. cbn in Hne.
      rewrite Hid in Hne. apply Z.eqb_eq in Heq. contradiction.
    + now subst c.
Qed.

(** X25 for a new first message of conversation 2. *)
Lemma X25_witness :
  let e := Cases.browser Cases.listing in
  let e' := snd (ConversationStore.updateConversation 2 (Cases.renamed "z") e) in
  map Conversation.conversation_id (ConversationState.conversations (store e'))
  = map Conversation.conversation_id (ConversationState.conversations (store e))
  /\ (forall c, In c (ConversationState.conversations (store e')) ->
                Conversation.conversation_id c <> 2 ->
                In c (ConversationState.conversations (store e)))
  /\ ConversationState.activeConversationId (store e')
     = ConversationState.activeConversationId (store e).
Proof.
  apply (X25_update_keeps_the_ids 2 (Cases.renamed "z")
           (Cases.browser Cases.listing)).
  reflexivity.
Defined.

(** X26: [refreshConversations] never throws and always ends with
    [isLoading] cleared and the active id as it was; the list is replaced by
    the entries of the body exactly when the server answers with a success
    whose body parses, and is kept as it was on every failure: a rejected
    request, status 401, another refusal, or a body that is not JSON. *)
Theorem X26_refresh_is_soft (b : Backend) (e : ConversationStore.State) :
  let run := ConversationStore.refreshConversations b e in
  fst run = Returned tt
  /\ ConversationState.isLoading (store (snd run)) = false
  /\ ConversationState.activeConversationId (store (snd run))
     = ConversationState.activeConversationId (store e)
  /\ ConversationState.conversations (store (snd run))
     = match reply b (list_request b e) with
       | Returned r =>
           if negb (Reply.status r =? 401) && Reply.ok r then
             match Reply.json r with
             | Returned body => Body.conversations body
             | Threw _ => ConversationState.conversations (store e)
             end
           else ConversationState.conversations (store e)
       | Threw _ => ConversationState.conversations (store e)
       end.
Proof.
  unfold list_request, stored_token.
  unfold ConversationStore.refreshConversations, ConversationStore.set,
    Rest.getConversations, Rest.apiCall, Api.getAuthToken, Api.removeAuthToken,
    try_catch, bind, gets, modify, await, ret, throw.
  cbn [localStorage_access_token with_store].
  destruct (reply b _) as [r|x]; [|repeat split].
  destruct (Reply.status r =? 401); cbn [negb andb].
  - destruct (window (world b)); repeat split.
  - destruct (Reply.ok r); cbn [negb]; [|repeat split].
    destruct (Reply.json r); repeat split.
Qed.

(** X27: the conversation [getActiveConversation] returns is an entry of
    the list whose id is the active id; it returns none exactly when no
    entry of the list has the active id, in particular when there is no
    active id; it never throws. *)
Theorem X27_active_conversation_is_listed (e : ConversationStore.State) :
  match fst (ConversationStore.getActiveConversation e) with
  | Returned (Some c) =>
      In c (ConversationState.conversations (store e))
      /\ ConversationState.activeConversationId (store e)
         = Some (Conversation.conversation_id c)
  | Returned None =>
      forall c, In c (ConversationState.conversations (store e)) ->
                ConversationState.activeConversationId (store e)
                <> Some (Conversation.conversation_id c)
  | Threw _ => False
  end.
Proof.
  unfold ConversationStore.getActiveConversation, ConversationStore.get,
    bind, gets, ret. cbn [fst].
  destruct (find _ _) as [c|] eqn:Hfind.
  - apply find_some in Hfind as [Hin Hid]. split; [exact Hin|].
    unfold ConversationStore.is_id in Hid.
    destruct (ConversationState.activeConversationId (store e)) as [a|];
      [|discriminate].
    apply Z.eqb_eq in Hid. now subst.
  - intros c Hin Hact. pose proof (find_none _ _ Hfind c Hin) as H.
    cbn beta in H. rewrite Hact in H. cbn in H. now rewrite Z.eqb_refl in H.
Qed.
